(** * selprotopy: a shallow embedding of the SEL protocol client

    The development follows the two source files of the package:

    - [Common] embeds [selprotopy/common.py]: [int_to_bool_list] and
      [ieee4bytefps];
    - [Client] embeds [selprotopy/__init__.py]: the class [SelClient], with
      the connection, the constants of [commands] and the block parsers of
      [protoparser] as interfaces;
    - [Double] is a synthetic relay on which the client can be run;
    - [CommonSpec] and [ClientSpec] hold the properties of the two files.

    Python integers are [Z], [bytes] objects are lists of [byte], [str]
    objects are [string]s, and a raised exception is the [Raise] outcome of a
    computation. *)

From Stdlib Require Import ZArith List Bool Ascii String Lia.
From Stdlib Require Import Strings.Byte.
From Stdlib Require Import Floats.SpecFloat.
Import ListNotations.

Local Open Scope Z_scope.

(* ================================================================== *)
(** * Python values shared by both modules *)
(* ================================================================== *)

(** The exceptions that the embedded code can raise.  [ParserError] stands for
    whatever a block parser of [protoparser] raises on input that it cannot
    interpret. *)
Inductive exn : Type :=
| ValueError (msg : string)
| OverflowError (msg : string)
| StructError
| AttributeError (attr : string)
| IndexError
| EOFError
| ParserError (msg : string).

(** Outcome of evaluating a Python expression. *)
Inductive result (A : Type) : Type :=
| Ok (a : A)
| Raise (e : exn).
Arguments Ok {A} a.
Arguments Raise {A} e.

Definition result_bind {A B} (r : result A) (f : A -> result B) : result B :=
  match r with
  | Ok a => f a
  | Raise e => Raise e
  end.

(* ================================================================== *)
(** * common.py *)
(* ================================================================== *)

Module Common.

(** ** [format(number, '04b')] *)

(** Binary digits of a positive number, most significant first. *)
Fixpoint bin_digits (p : positive) : list ascii :=
  match p with
  | xH => ["1"%char]
  | xO q => bin_digits q ++ ["0"%char]
  | xI q => bin_digits q ++ ["1"%char]
  end.

(** Digits of [abs(number)] in base two. *)
Definition bin_abs (number : Z) : list ascii :=
  match number with
  | Z0 => ["0"%char]
  | Zpos p => bin_digits p
  | Zneg p => bin_digits p
  end.

(** [format(number, '04b')]: base two, minimum width 4, the fill character
    ['0'] placed after the sign. *)
Definition format_04b (number : Z) : list ascii :=
  let sign := if number <? 0 then ["-"%char] else [] in
  let digits := bin_abs number in
  sign ++ repeat "0"%char (4 - List.length sign - List.length digits)%nat ++ digits.

(** ** [int_to_bool_list] *)

(** [x == '1'] *)
Definition is_one (x : ascii) : bool := Ascii.eqb x "1"%char.

Definition int_to_bool_list (number : Z) (byte_like reverse : bool) : list bool :=
  let bin_string := format_04b number in
  let bin_list := map is_one (rev bin_string) in
  (* Extend List of Bytes if Needed *)
  let bin_list :=
    if byte_like && negb (Nat.eqb (Nat.modulo (List.length bin_list) 8) 0) then
      let len_needed := ((Nat.div (List.length bin_list) 8 + 1) * 8)%nat in
      let apnd_list := repeat false (len_needed - List.length bin_list)%nat in
      bin_list ++ apnd_list
    else bin_list in
  (* Reverse if Desired *)
  if reverse then rev bin_list else bin_list.

(** Value of a bit sequence whose least significant bit comes first (and
    whose most significant bit comes last). *)
Fixpoint recompose (bits : list bool) : Z :=
  match bits with
  | [] => 0
  | b :: rest => Z.b2z b + 2 * recompose rest
  end.

(** ** [ieee4bytefps] *)

(** A Python [float].  Every value that [struct.unpack('>f', ...)] produces is
    a binary32 number, and [spec_float] represents each of them exactly:
    [S754_finite s m e] is the number [(-1)^s * m * 2^e]. *)
Definition pyfloat : Type := spec_float.

(** The two operations on floating-point numbers whose numerical results the
    embedding does not compute: the C library's [log10] on a finite positive
    argument [m * 2^e], and Python's [round(x, ndigits)] on a float. *)
Class FloatOps : Type := {
  libm_log10 : positive -> Z -> pyfloat;
  float_round : pyfloat -> Z -> pyfloat
}.

(** The number with the bit pattern [w] in the binary32 interchange format:
    bit 31 is the sign, bits 30..23 the biased exponent and bits 22..0 the
    fraction. *)
Definition binary32_of_bits (w : Z) : pyfloat :=
  let s := Z.testbit w 31 in
  let e := Z.land (Z.shiftr w 23) 255 in
  let f := Z.land w (Z.ones 23) in
  if e =? 0 then
    match f with
    | Zpos m => S754_finite s m (-149)
    | _ => S754_zero s
    end
  else if e =? 255 then
    if f =? 0 then S754_infinity s else S754_nan
  else S754_finite s (Z.to_pos (Z.lor f (Z.shiftl 1 23))) (e - 150).

Definition byte_to_Z (b : byte) : Z := Z.of_N (Byte.to_N b).

(** [struct.unpack('>f', binary_bytes)[0]]: big-endian, so the first byte holds
    the sign and the high exponent bits; [struct.error] unless the argument
    has exactly 4 bytes. *)
Definition struct_unpack_f (binary_bytes : list byte) : result pyfloat :=
  match binary_bytes with
  | [b0; b1; b2; b3] =>
      Ok (binary32_of_bits
            (Z.lor (Z.shiftl (byte_to_Z b0) 24)
               (Z.lor (Z.shiftl (byte_to_Z b1) 16)
                  (Z.lor (Z.shiftl (byte_to_Z b2) 8) (byte_to_Z b3)))))
  | _ => Raise StructError
  end.

(** [x == 0] *)
Definition float_is_zero (x : pyfloat) : bool :=
  match x with
  | S754_zero _ => true
  | _ => false
  end.

(** [abs(x)] *)
Definition float_abs (x : pyfloat) : pyfloat :=
  match x with
  | S754_zero _ => S754_zero false
  | S754_infinity _ => S754_infinity false
  | S754_nan => S754_nan
  | S754_finite _ m e => S754_finite false m e
  end.

(** The values that are neither infinite nor NaN. *)
Definition is_finite (x : pyfloat) : bool :=
  match x with
  | S754_zero _ | S754_finite _ _ _ => true
  | S754_infinity _ | S754_nan => false
  end.

(** [math.floor(x)]: an [int]; infinities and NaN have no integer value. *)
Definition math_floor (x : pyfloat) : result Z :=
  match x with
  | S754_zero _ => Ok 0
  | S754_infinity _ =>
      Raise (OverflowError "cannot convert float infinity to integer")
  | S754_nan => Raise (ValueError "cannot convert float NaN to integer")
  | S754_finite s m e => Ok (Z.shiftl (if s then Zneg m else Zpos m) e)
  end.

Section Floats.
Context {ops : FloatOps}.

(** [math.log10(x)]: NaN and positive infinity are returned as they are,
    arguments that are zero or negative are a domain error. *)
Definition math_log10 (x : pyfloat) : result pyfloat :=
  match x with
  | S754_nan => Ok S754_nan
  | S754_infinity false => Ok (S754_infinity false)
  | S754_finite false m e => Ok (libm_log10 m e)
  | _ => Raise (ValueError "math domain error")
  end.

(** The inner function [magnitude] of [ieee4bytefps]; [int(...)] of the
    integer that [math.floor] returns is that integer. *)
Definition magnitude (x : pyfloat) : result Z :=
  if float_is_zero x then Ok 0
  else
    result_bind (math_log10 (float_abs x)) (fun l =>
    result_bind (math_floor l) (fun fl =>
    Ok (fl + 1))).

(** The inner function [round_total_digits] of [ieee4bytefps]. *)
Definition round_total_digits (x : pyfloat) (digits : Z) : result pyfloat :=
  result_bind (magnitude x) (fun mag =>
  Ok (float_round x (digits - mag))).

(** [ieee4bytefps(binary_bytes, total_digits)]; the source's default for
    [total_digits] is 7. *)
Definition ieee4bytefps (binary_bytes : list byte) (total_digits : Z)
  : result pyfloat :=
  result_bind (struct_unpack_f binary_bytes) (fun x =>
  round_total_digits x total_digits).

End Floats.

End Common.

(* ================================================================== *)
(** * __init__.py *)
(* ================================================================== *)

Module Client.

(** ** [bytes] objects *)

Definition bytes : Type := list byte.

(** A [bytes] literal with ASCII content, as in [b'Invalid']. *)
Definition b (s : string) : bytes := list_byte_of_string s.

(** [s.startswith(sub)] *)
Fixpoint startswith (sub s : bytes) : bool :=
  match sub, s with
  | [], _ => true
  | _ :: _, [] => false
  | x :: sub', y :: s' => Byte.eqb x y && startswith sub' s'
  end.

(** [s.find(sub)], computed from offset [i]: the lowest index at which [sub]
    occurs in [s], and -1 when it does not occur. *)
Fixpoint bytes_find_from (i : Z) (sub s : bytes) : Z :=
  if startswith sub s then i
  else
    match s with
    | [] => -1
    | _ :: s' => bytes_find_from (i + 1) sub s'
    end.

Definition bytes_find (s sub : bytes) : Z := bytes_find_from 0 sub s.

(** [sub in s] *)
Fixpoint bytes_in (sub s : bytes) : bool :=
  startswith sub s ||
  match s with
  | [] => false
  | _ :: s' => bytes_in sub s'
  end.

(** [l[i]] on a list, for an index [i] that is not negative. *)
Definition list_getitem {A} (l : list A) (i : nat) : result A :=
  match nth_error l i with
  | Some x => Ok x
  | None => Raise IndexError
  end.

(** ** The connection

    [connApi] is a [telnetlib.Telnet] or [serial.Serial] object that the
    caller supplies.  The client only calls [write] and [read_until] on it, so
    a connection is the log of what was written together with the chunks that
    the successive calls of [read_until] are going to return.  A run of the
    client against any relay is a run against the list of chunks that the relay
    delivered in that run.  When no chunk is left the connection is closed and
    [read_until] raises [EOFError]. *)
Record Conn : Type := {
  written : list bytes;
  pending : list bytes
}.

(** ** The module [commands]: constants *)
Class Commands : Type := {
  CR : bytes;
  LEVEL_0 : bytes;
  LEVEL_1 : bytes;
  LEVEL_2 : bytes;
  LEVEL_C : bytes;
  PROMPT : bytes;
  QUIT : bytes;
  GO_ACC : bytes;
  GO_2AC : bytes;
  PASS_ACC : bytes;
  PASS_2AC : bytes;
  RELAY_DEFENITION : bytes;
  DNA : bytes;
  ID : bytes;
  FM_CONFIG_BLOCK : bytes;
  FM_DEMAND_CONFIG_BLOCK : bytes;
  FM_PEAK_CONFIG_BLOCK : bytes;
  FAST_METER_REGULAR : bytes;
  FAST_METER_DEMAND : bytes;
  FAST_METER_PEAK_DEMAND : bytes;
  FO_CONFIG_BLOCK : bytes;
  FAST_MSG_CONFIG_BLOCK : bytes
}.

(** ** The module [protoparser]: block parsers *)

(** An element of [definition['fmcommandinfo']]. *)
Record FmCommandInfo : Type := {
  configcommand : bytes;
  command : bytes
}.

(** The mapping that [RelayDefinitionBlock] returns. *)
Record RelayDefinition (CommandInfo : Type) : Type := {
  def_fmcommandinfo : list FmCommandInfo;
  def_fopcommandinfo : CommandInfo;
  def_fmsgcommandinfo : CommandInfo
}.
Arguments def_fmcommandinfo {CommandInfo} _.
Arguments def_fopcommandinfo {CommandInfo} _.
Arguments def_fmsgcommandinfo {CommandInfo} _.

(** The mapping that [RelayIdBlock] returns. *)
Record IdBlock : Type := {
  FID : string;
  BFID : string;
  CID : string;
  DEVID : string;
  PARTNO : string;
  CONFIG : string
}.

(** The parsers take the raw response and the [verbose] flag; each either
    returns its structure or raises.  [FastMeterBlock] also receives the
    values of the attributes [fastMeterDef] (which may be [None]) and
    [dnaDef]. *)
Class Protoparser : Type := {
  CommandInfo : Type;
  ConfigBlock : Type;
  DnaBlock : Type;
  MeterBlock : Type;
  RelayDefinitionBlock : bytes -> bool -> result (RelayDefinition CommandInfo);
  FastMeterConfigurationBlock : bytes -> bool -> result ConfigBlock;
  RelayDnaBlock : bytes -> bool -> result DnaBlock;
  RelayIdBlock : bytes -> bool -> result IdBlock;
  FastMeterBlock :
    bytes -> option ConfigBlock -> DnaBlock -> bool -> result MeterBlock
}.

(** Keyword arguments that the methods forward to one another. *)
Record Kwargs : Type := {
  level_1_pass : option bytes;
  level_2_pass : option bytes
}.

Definition no_kwargs : Kwargs :=
  {| level_1_pass := None; level_2_pass := None |}.

Section SelClient.
Context {cmds : Commands} {pp : Protoparser}.

(** Value of the attributes [fopcommandinfo] and [fmsgcommandinfo]: the
    constant that the constructor stores, or the entry of a parsed relay
    definition. *)
Inductive cmdinfo : Type :=
| CommandBytes (c : bytes)
| CommandParsed (c : CommandInfo).

(** ** The attributes of a [SelClient]

    [fastMeterDef], [fastDemandDef] and [fastPkDemandDef] are [None] in Python
    until a configuration block is stored.  The attribute [dnaDef] does not
    exist until [autoconfig] assigns it: [dnaDef = None] here means that the
    object has no such attribute.  The attribute [delay] only feeds
    [time.sleep], which changes neither the object nor the connection, and is
    left out together with the calls of [time.sleep] and [print]. *)
Record SelClient : Type := {
  conn : Conn;
  verbose : bool;
  check : Z;
  debug : bool;
  fid : string;
  bfid : string;
  cid : string;
  devid : string;
  partno : string;
  config : string;
  fmconfigcommand1 : bytes;
  fmcommand1 : bytes;
  fmconfigcommand2 : bytes;
  fmcommand2 : bytes;
  fmconfigcommand3 : bytes;
  fmcommand3 : bytes;
  fopcommandinfo : cmdinfo;
  fmsgcommandinfo : cmdinfo;
  fastMeterDef : option ConfigBlock;
  fastDemandDef : option ConfigBlock;
  fastPkDemandDef : option ConfigBlock;
  dnaDef : option DnaBlock
}.

(** *** Attribute assignment *)

Definition set_conn (v : Conn) (s : SelClient) : SelClient :=
  {| conn := v; verbose := verbose s; check := check s; debug := debug s;
     fid := fid s; bfid := bfid s; cid := cid s; devid := devid s;
     partno := partno s; config := config s;
     fmconfigcommand1 := fmconfigcommand1 s; fmcommand1 := fmcommand1 s;
     fmconfigcommand2 := fmconfigcommand2 s; fmcommand2 := fmcommand2 s;
     fmconfigcommand3 := fmconfigcommand3 s; fmcommand3 := fmcommand3 s;
     fopcommandinfo := fopcommandinfo s; fmsgcommandinfo := fmsgcommandinfo s;
     fastMeterDef := fastMeterDef s; fastDemandDef := fastDemandDef s;
     fastPkDemandDef := fastPkDemandDef s; dnaDef := dnaDef s |}.

Definition set_fid (v : string) (s : SelClient) : SelClient :=
  {| conn := conn s; verbose := verbose s; check := check s; debug := debug s;
     fid := v; bfid := bfid s; cid := cid s; devid := devid s;
     partno := partno s; config := config s;
     fmconfigcommand1 := fmconfigcommand1 s; fmcommand1 := fmcommand1 s;
     fmconfigcommand2 := fmconfigcommand2 s; fmcommand2 := fmcommand2 s;
     fmconfigcommand3 := fmconfigcommand3 s; fmcommand3 := fmcommand3 s;
     fopcommandinfo := fopcommandinfo s; fmsgcommandinfo := fmsgcommandinfo s;
     fastMeterDef := fastMeterDef s; fastDemandDef := fastDemandDef s;
     fastPkDemandDef := fastPkDemandDef s; dnaDef := dnaDef s |}.

Definition set_bfid (v : string) (s : SelClient) : SelClient :=
  {| conn := conn s; verbose := verbose s; check := check s; debug := debug s;
     fid := fid s; bfid := v; cid := cid s; devid := devid s;
     partno := partno s; config := config s;
     fmconfigcommand1 := fmconfigcommand1 s; fmcommand1 := fmcommand1 s;
     fmconfigcommand2 := fmconfigcommand2 s; fmcommand2 := fmcommand2 s;
     fmconfigcommand3 := fmconfigcommand3 s; fmcommand3 := fmcommand3 s;
     fopcommandinfo := fopcommandinfo s; fmsgcommandinfo := fmsgcommandinfo s;
     fastMeterDef := fastMeterDef s; fastDemandDef := fastDemandDef s;
     fastPkDemandDef := fastPkDemandDef s; dnaDef := dnaDef s |}.

Definition set_cid (v : string) (s : SelClient) : SelClient :=
  {| conn := conn s; verbose := verbose s; check := check s; debug := debug s;
     fid := fid s; bfid := bfid s; cid := v; devid := devid s;
     partno := partno s; config := config s;
     fmconfigcommand1 := fmconfigcommand1 s; fmcommand1 := fmcommand1 s;
     fmconfigcommand2 := fmconfigcommand2 s; fmcommand2 := fmcommand2 s;
     fmconfigcommand3 := fmconfigcommand3 s; fmcommand3 := fmcommand3 s;
     fopcommandinfo := fopcommandinfo s; fmsgcommandinfo := fmsgcommandinfo s;
     fastMeterDef := fastMeterDef s; fastDemandDef := fastDemandDef s;
     fastPkDemandDef := fastPkDemandDef s; dnaDef := dnaDef s |}.

Definition set_devid (v : string) (s : SelClient) : SelClient :=
  {| conn := conn s; verbose := verbose s; check := check s; debug := debug s;
     fid := fid s; bfid := bfid s; cid := cid s; devid := v;
     partno := partno s; config := config s;
     fmconfigcommand1 := fmconfigcommand1 s; fmcommand1 := fmcommand1 s;
     fmconfigcommand2 := fmconfigcommand2 s; fmcommand2 := fmcommand2 s;
     fmconfigcommand3 := fmconfigcommand3 s; fmcommand3 := fmcommand3 s;
     fopcommandinfo := fopcommandinfo s; fmsgcommandinfo := fmsgcommandinfo s;
     fastMeterDef := fastMeterDef s; fastDemandDef := fastDemandDef s;
     fastPkDemandDef := fastPkDemandDef s; dnaDef := dnaDef s |}.

Definition set_partno (v : string) (s : SelClient) : SelClient :=
  {| conn := conn s; verbose := verbose s; check := check s; debug := debug s;
     fid := fid s; bfid := bfid s; cid := cid s; devid := devid s;
     partno := v; config := config s;
     fmconfigcommand1 := fmconfigcommand1 s; fmcommand1 := fmcommand1 s;
     fmconfigcommand2 := fmconfigcommand2 s; fmcommand2 := fmcommand2 s;
     fmconfigcommand3 := fmconfigcommand3 s; fmcommand3 := fmcommand3 s;
     fopcommandinfo := fopcommandinfo s; fmsgcommandinfo := fmsgcommandinfo s;
     fastMeterDef := fastMeterDef s; fastDemandDef := fastDemandDef s;
     fastPkDemandDef := fastPkDemandDef s; dnaDef := dnaDef s |}.

Definition set_config (v : string) (s : SelClient) : SelClient :=
  {| conn := conn s; verbose := verbose s; check := check s; debug := debug s;
     fid := fid s; bfid := bfid s; cid := cid s; devid := devid s;
     partno := partno s; config := v;
     fmconfigcommand1 := fmconfigcommand1 s; fmcommand1 := fmcommand1 s;
     fmconfigcommand2 := fmconfigcommand2 s; fmcommand2 := fmcommand2 s;
     fmconfigcommand3 := fmconfigcommand3 s; fmcommand3 := fmcommand3 s;
     fopcommandinfo := fopcommandinfo s; fmsgcommandinfo := fmsgcommandinfo s;
     fastMeterDef := fastMeterDef s; fastDemandDef := fastDemandDef s;
     fastPkDemandDef := fastPkDemandDef s; dnaDef := dnaDef s |}.

Definition set_fmconfigcommand1 (v : bytes) (s : SelClient) : SelClient :=
  {| conn := conn s; verbose := verbose s; check := check s; debug := debug s;
     fid := fid s; bfid := bfid s; cid := cid s; devid := devid s;
     partno := partno s; config := config s;
     fmconfigcommand1 := v; fmcommand1 := fmcommand1 s;
     fmconfigcommand2 := fmconfigcommand2 s; fmcommand2 := fmcommand2 s;
     fmconfigcommand3 := fmconfigcommand3 s; fmcommand3 := fmcommand3 s;
     fopcommandinfo := fopcommandinfo s; fmsgcommandinfo := fmsgcommandinfo s;
     fastMeterDef := fastMeterDef s; fastDemandDef := fastDemandDef s;
     fastPkDemandDef := fastPkDemandDef s; dnaDef := dnaDef s |}.

Definition set_fmcommand1 (v : bytes) (s : SelClient) : SelClient :=
  {| conn := conn s; verbose := verbose s; check := check s; debug := debug s;
     fid := fid s; bfid := bfid s; cid := cid s; devid := devid s;
     partno := partno s; config := config s;
     fmconfigcommand1 := fmconfigcommand1 s; fmcommand1 := v;
     fmconfigcommand2 := fmconfigcommand2 s; fmcommand2 := fmcommand2 s;
     fmconfigcommand3 := fmconfigcommand3 s; fmcommand3 := fmcommand3 s;
     fopcommandinfo := fopcommandinfo s; fmsgcommandinfo := fmsgcommandinfo s;
     fastMeterDef := fastMeterDef s; fastDemandDef := fastDemandDef s;
     fastPkDemandDef := fastPkDemandDef s; dnaDef := dnaDef s |}.

Definition set_fmconfigcommand2 (v : bytes) (s : SelClient) : SelClient :=
  {| conn := conn s; verbose := verbose s; check := check s; debug := debug s;
     fid := fid s; bfid := bfid s; cid := cid s; devid := devid s;
     partno := partno s; config := config s;
     fmconfigcommand1 := fmconfigcommand1 s; fmcommand1 := fmcommand1 s;
     fmconfigcommand2 := v; fmcommand2 := fmcommand2 s;
     fmconfigcommand3 := fmconfigcommand3 s; fmcommand3 := fmcommand3 s;
     fopcommandinfo := fopcommandinfo s; fmsgcommandinfo := fmsgcommandinfo s;
     fastMeterDef := fastMeterDef s; fastDemandDef := fastDemandDef s;
     fastPkDemandDef := fastPkDemandDef s; dnaDef := dnaDef s |}.

Definition set_fmcommand2 (v : bytes) (s : SelClient) : SelClient :=
  {| conn := conn s; verbose := verbose s; check := check s; debug := debug s;
     fid := fid s; bfid := bfid s; cid := cid s; devid := devid s;
     partno := partno s; config := config s;
     fmconfigcommand1 := fmconfigcommand1 s; fmcommand1 := fmcommand1 s;
     fmconfigcommand2 := fmconfigcommand2 s; fmcommand2 := v;
     fmconfigcommand3 := fmconfigcommand3 s; fmcommand3 := fmcommand3 s;
     fopcommandinfo := fopcommandinfo s; fmsgcommandinfo := fmsgcommandinfo s;
     fastMeterDef := fastMeterDef s; fastDemandDef := fastDemandDef s;
     fastPkDemandDef := fastPkDemandDef s; dnaDef := dnaDef s |}.

Definition set_fmconfigcommand3 (v : bytes) (s : SelClient) : SelClient :=
  {| conn := conn s; verbose := verbose s; check := check s; debug := debug s;
     fid := fid s; bfid := bfid s; cid := cid s; devid := devid s;
     partno := partno s; config := config s;
     fmconfigcommand1 := fmconfigcommand1 s; fmcommand1 := fmcommand1 s;
     fmconfigcommand2 := fmconfigcommand2 s; fmcommand2 := fmcommand2 s;
     fmconfigcommand3 := v; fmcommand3 := fmcommand3 s;
     fopcommandinfo := fopcommandinfo s; fmsgcommandinfo := fmsgcommandinfo s;
     fastMeterDef := fastMeterDef s; fastDemandDef := fastDemandDef s;
     fastPkDemandDef := fastPkDemandDef s; dnaDef := dnaDef s |}.

Definition set_fmcommand3 (v : bytes) (s : SelClient) : SelClient :=
  {| conn := conn s; verbose := verbose s; check := check s; debug := debug s;
     fid := fid s; bfid := bfid s; cid := cid s; devid := devid s;
     partno := partno s; config := config s;
     fmconfigcommand1 := fmconfigcommand1 s; fmcommand1 := fmcommand1 s;
     fmconfigcommand2 := fmconfigcommand2 s; fmcommand2 := fmcommand2 s;
     fmconfigcommand3 := fmconfigcommand3 s; fmcommand3 := v;
     fopcommandinfo := fopcommandinfo s; fmsgcommandinfo := fmsgcommandinfo s;
     fastMeterDef := fastMeterDef s; fastDemandDef := fastDemandDef s;
     fastPkDemandDef := fastPkDemandDef s; dnaDef := dnaDef s |}.

Definition set_fopcommandinfo (v : cmdinfo) (s : SelClient) : SelClient :=
  {| conn := conn s; verbose := verbose s; check := check s; debug := debug s;
     fid := fid s; bfid := bfid s; cid := cid s; devid := devid s;
     partno := partno s; config := config s;
     fmconfigcommand1 := fmconfigcommand1 s; fmcommand1 := fmcommand1 s;
     fmconfigcommand2 := fmconfigcommand2 s; fmcommand2 := fmcommand2 s;
     fmconfigcommand3 := fmconfigcommand3 s; fmcommand3 := fmcommand3 s;
     fopcommandinfo := v; fmsgcommandinfo := fmsgcommandinfo s;
     fastMeterDef := fastMeterDef s; fastDemandDef := fastDemandDef s;
     fastPkDemandDef := fastPkDemandDef s; dnaDef := dnaDef s |}.

Definition set_fmsgcommandinfo (v : cmdinfo) (s : SelClient) : SelClient :=
  {| conn := conn s; verbose := verbose s; check := check s; debug := debug s;
     fid := fid s; bfid := bfid s; cid := cid s; devid := devid s;
     partno := partno s; config := config s;
     fmconfigcommand1 := fmconfigcommand1 s; fmcommand1 := fmcommand1 s;
     fmconfigcommand2 := fmconfigcommand2 s; fmcommand2 := fmcommand2 s;
     fmconfigcommand3 := fmconfigcommand3 s; fmcommand3 := fmcommand3 s;
     fopcommandinfo := fopcommandinfo s; fmsgcommandinfo := v;
     fastMeterDef := fastMeterDef s; fastDemandDef := fastDemandDef s;
     fastPkDemandDef := fastPkDemandDef s; dnaDef := dnaDef s |}.

Definition set_fastMeterDef (v : option ConfigBlock) (s : SelClient)
  : SelClient :=
  {| conn := conn s; verbose := verbose s; check := check s; debug := debug s;
     fid := fid s; bfid := bfid s; cid := cid s; devid := devid s;
     partno := partno s; config := config s;
     fmconfigcommand1 := fmconfigcommand1 s; fmcommand1 := fmcommand1 s;
     fmconfigcommand2 := fmconfigcommand2 s; fmcommand2 := fmcommand2 s;
     fmconfigcommand3 := fmconfigcommand3 s; fmcommand3 := fmcommand3 s;
     fopcommandinfo := fopcommandinfo s; fmsgcommandinfo := fmsgcommandinfo s;
     fastMeterDef := v; fastDemandDef := fastDemandDef s;
     fastPkDemandDef := fastPkDemandDef s; dnaDef := dnaDef s |}.

Definition set_fastDemandDef (v : option ConfigBlock) (s : SelClient)
  : SelClient :=
  {| conn := conn s; verbose := verbose s; check := check s; debug := debug s;
     fid := fid s; bfid := bfid s; cid := cid s; devid := devid s;
     partno := partno s; config := config s;
     fmconfigcommand1 := fmconfigcommand1 s; fmcommand1 := fmcommand1 s;
     fmconfigcommand2 := fmconfigcommand2 s; fmcommand2 := fmcommand2 s;
     fmconfigcommand3 := fmconfigcommand3 s; fmcommand3 := fmcommand3 s;
     fopcommandinfo := fopcommandinfo s; fmsgcommandinfo := fmsgcommandinfo s;
     fastMeterDef := fastMeterDef s; fastDemandDef := v;
     fastPkDemandDef := fastPkDemandDef s; dnaDef := dnaDef s |}.

Definition set_fastPkDemandDef (v : option ConfigBlock) (s : SelClient)
  : SelClient :=
  {| conn := conn s; verbose := verbose s; check := check s; debug := debug s;
     fid := fid s; bfid := bfid s; cid := cid s; devid := devid s;
     partno := partno s; config := config s;
     fmconfigcommand1 := fmconfigcommand1 s; fmcommand1 := fmcommand1 s;
     fmconfigcommand2 := fmconfigcommand2 s; fmcommand2 := fmcommand2 s;
     fmconfigcommand3 := fmconfigcommand3 s; fmcommand3 := fmcommand3 s;
     fopcommandinfo := fopcommandinfo s; fmsgcommandinfo := fmsgcommandinfo s;
     fastMeterDef := fastMeterDef s; fastDemandDef := fastDemandDef s;
     fastPkDemandDef := v; dnaDef := dnaDef s |}.

Definition set_dnaDef (v : option DnaBlock) (s : SelClient) : SelClient :=
  {| conn := conn s; verbose := verbose s; check := check s; debug := debug s;
     fid := fid s; bfid := bfid s; cid := cid s; devid := devid s;
     partno := partno s; config := config s;
     fmconfigcommand1 := fmconfigcommand1 s; fmcommand1 := fmcommand1 s;
     fmconfigcommand2 := fmconfigcommand2 s; fmcommand2 := fmcommand2 s;
     fmconfigcommand3 := fmconfigcommand3 s; fmcommand3 := fmcommand3 s;
     fopcommandinfo := fopcommandinfo s; fmsgcommandinfo := fmsgcommandinfo s;
     fastMeterDef := fastMeterDef s; fastDemandDef := fastDemandDef s;
     fastPkDemandDef := fastPkDemandDef s; dnaDef := v |}.

(** ** Methods as computations on the object

    A method takes the object before the call and returns its outcome with the
    object after the call.  Assignments made before an exception is raised
    stay in place, as they do on a Python object. *)
Definition M (A : Type) : Type := SelClient -> result A * SelClient.

Definition ret {A} (a : A) : M A := fun s => (Ok a, s).

Definition raise {A} (e : exn) : M A := fun s => (Raise e, s).

Definition bind {A B} (m : M A) (f : A -> M B) : M B :=
  fun s =>
    match m s with
    | (Ok a, s') => f a s'
    | (Raise e, s') => (Raise e, s')
    end.

(** Evaluation of an expression that does not touch the object. *)
Definition lift {A} (r : result A) : M A := fun s => (r, s).

(** Reading an attribute. *)
Definition gets {A} (f : SelClient -> A) : M A := fun s => (Ok (f s), s).

(** Assigning an attribute. *)
Definition assign (f : SelClient -> SelClient) : M unit :=
  fun s => (Ok tt, f s).

(** Reading an attribute that may not exist. *)
Definition getattr {A} (name : string) (f : SelClient -> option A) : M A :=
  fun s =>
    match f s with
    | Some v => (Ok v, s)
    | None => (Raise (AttributeError name), s)
    end.

End SelClient.

Declare Scope client_scope.
Delimit Scope client_scope with client.
Notation "x <- m ;; k" := (bind m (fun x => k))
  (at level 61, m at next level, right associativity) : client_scope.
Notation "m ;; k" := (bind m (fun _ => k))
  (at level 61, right associativity) : client_scope.

Section Methods.
Context {cmds : Commands} {pp : Protoparser}.
Local Open Scope client_scope.

(** [self.conn.write(data)] *)
Definition conn_write (data : bytes) : M unit :=
  fun s =>
    (Ok tt,
     set_conn {| written := written (conn s) ++ [data];
                 pending := pending (conn s) |} s).

(** [self.conn.read_until(expected)] *)
Definition conn_read_until (expected : bytes) : M bytes :=
  fun s =>
    match pending (conn s) with
    | [] => (Raise EOFError, s)
    | chunk :: rest =>
        (Ok chunk,
         set_conn {| written := written (conn s); pending := rest |} s)
    end.

(** [_verify_connection]: the body of the [for] loop runs at most
    [self.check] times. *)
Fixpoint _verify_connection_loop (attempts : nat) : M bool :=
  match attempts with
  | O => ret false
  | S attempts' =>
      conn_write CR ;;
      response <- conn_read_until CR ;;
      if bytes_in LEVEL_0 response then ret true
      else _verify_connection_loop attempts'
  end.

Definition _verify_connection : M bool :=
  n <- gets check ;;
  _verify_connection_loop (Z.to_nat n).

(** [_read_to_prompt]: the argument [prompt_str] is not used by the source. *)
Definition _read_to_prompt (prompt_str : bytes) : M bytes :=
  conn_read_until PROMPT.

(** The [while] loop of [_read_command_response].  Every iteration reads one
    chunk, so the loop ends after at most as many iterations as chunks are
    pending, with the response or with [EOFError]; [fuel] bounds the number of
    iterations and [None] reports that the bound was reached. *)
Fixpoint _read_command_response_loop (fuel : nat) (command prompt_str : bytes)
  (response : bytes) : SelClient -> option (result bytes * SelClient) :=
  fun s =>
    if bytes_find response command =? -1 then
      match fuel with
      | O => None
      | S fuel' =>
          match _read_to_prompt prompt_str s with
          | (Ok chunk, s') =>
              _read_command_response_loop fuel' command prompt_str
                (response ++ chunk) s'
          | (Raise e, s') => Some (Raise e, s')
          end
      end
    else Some (Ok response, s).

(** [_read_command_response]: one more iteration than chunks are pending is
    always enough (lemma [_read_command_response_loop_fuel]). *)
Definition _read_command_response (command prompt_str : bytes) : M bytes :=
  fun s =>
    match _read_command_response_loop (S (List.length (pending (conn s))))
            command prompt_str [] s with
    | Some out => out
    | None => (Raise EOFError, s)
    end.

(** [access_level] *)
Definition access_level : M (Z * string) :=
  (* Retrieve Prompt Twice *)
  conn_write CR ;;
  resp <- _read_to_prompt PROMPT ;;
  conn_write CR ;;
  resp2 <- _read_to_prompt PROMPT ;;
  let resp := resp ++ resp2 in
  (* Look for Each Level, Return Highest Found *)
  if bytes_in LEVEL_C resp then ret (3, "CAL"%string)
  else if bytes_in LEVEL_2 resp then ret (2, "2AC"%string)
  else if bytes_in LEVEL_1 resp then ret (1, "ACC"%string)
  else ret (0, EmptyString).

(** [quit] *)
Definition quit : M unit :=
  conn_write QUIT ;;
  _ <- _read_to_prompt LEVEL_0 ;;
  ret tt.

(** The parameter [level_1_pass=commands.PASS_ACC] of [access_level_1]. *)
Definition level_1_pass_arg (kwargs : Kwargs) : bytes :=
  match level_1_pass kwargs with
  | Some p => p
  | None => PASS_ACC
  end.

(** The parameter [level_2_pass=commands.PASS_2AC] of [access_level_2]. *)
Definition level_2_pass_arg (kwargs : Kwargs) : bytes :=
  match level_2_pass kwargs with
  | Some p => p
  | None => PASS_2AC
  end.

(** [access_level_1] *)
Definition access_level_1 (kwargs : Kwargs) : M bool :=
  (* Identify Current Access Level *)
  lvl <- access_level ;;
  let level := fst lvl in
  conn_write GO_ACC ;;
  (* Provide Password *)
  (if level =? 0 then conn_write (level_1_pass_arg kwargs ++ CR)
   else ret tt) ;;
  resp <- _read_to_prompt LEVEL_0 ;;
  if bytes_in (b "Invalid") resp then ret false else ret true.

(** [access_level_2]; [None] is the path that leaves by the inner
    [return False]. *)
Definition access_level_2 (kwargs : Kwargs) : M bool :=
  (* Identify Current Access Level *)
  lvl <- access_level ;;
  let level := fst lvl in
  (* Provide Password *)
  failed <- (if level =? 0 then
               ok <- access_level_1 kwargs ;;
               ret (negb ok)
             else ret false) ;;
  if failed : bool then ret false
  else
    conn_write GO_2AC ;;
    (if (level =? 0) || (level =? 1)
     then conn_write (level_2_pass_arg kwargs ++ CR)
     else ret tt) ;;
    resp <- _read_to_prompt LEVEL_0 ;;
    if bytes_in (b "Invalid") resp then ret false else ret true.

(** [autoconfig_fastmeter] *)
Definition autoconfig_fastmeter (verbose : bool) : M unit :=
  (* Fast Meter *)
  cmd <- gets fmconfigcommand1 ;;
  conn_write (cmd ++ CR) ;;
  raw <- _read_to_prompt PROMPT ;;
  blk <- lift (FastMeterConfigurationBlock raw verbose) ;;
  assign (set_fastMeterDef (Some blk)).

(** [autoconfig_fastmeter_demand] *)
Definition autoconfig_fastmeter_demand (verbose : bool) : M unit :=
  (* Fast Meter Demand *)
  cmd <- gets fmconfigcommand2 ;;
  conn_write (cmd ++ CR) ;;
  raw <- _read_to_prompt PROMPT ;;
  blk <- lift (FastMeterConfigurationBlock raw verbose) ;;
  assign (set_fastDemandDef (Some blk)).

(** [autoconfig_fastmeter_peakdemand] *)
Definition autoconfig_fastmeter_peakdemand (verbose : bool) : M unit :=
  (* Fast Meter Peak Demand *)
  cmd <- gets fmconfigcommand3 ;;
  conn_write (cmd ++ CR) ;;
  raw <- _read_to_prompt PROMPT ;;
  blk <- lift (FastMeterConfigurationBlock raw verbose) ;;
  assign (set_fastPkDemandDef (Some blk)).

(** [definition['fmcommandinfo'][i]] *)
Definition fmcommandinfo (definition : RelayDefinition CommandInfo) (i : nat)
  : M FmCommandInfo :=
  lift (list_getitem (def_fmcommandinfo definition) i).

(** [autoconfig] *)
Definition autoconfig (verbose : bool) (kwargs : Kwargs) : M string :=
  (* Determine if Level 0, and Escalate Accordingly *)
  lvl <- access_level ;;
  (if fst lvl =? 0 then
     (* Access Level 1 Required to Request DNA *)
     _ <- access_level_1 kwargs ;; ret tt
   else ret tt) ;;
  (* Request Relay Definition *)
  conn_write (RELAY_DEFENITION ++ CR) ;;
  raw <- _read_command_response RELAY_DEFENITION PROMPT ;;
  definition <- lift (RelayDefinitionBlock raw verbose) ;;
  (* Load the Relay Definition Information *)
  e <- fmcommandinfo definition 0 ;;
  assign (set_fmconfigcommand1 (configcommand e)) ;;
  e <- fmcommandinfo definition 0 ;;
  assign (set_fmcommand1 (command e)) ;;
  e <- fmcommandinfo definition 1 ;;
  assign (set_fmconfigcommand2 (configcommand e)) ;;
  e <- fmcommandinfo definition 1 ;;
  assign (set_fmcommand2 (command e)) ;;
  e <- fmcommandinfo definition 2 ;;
  assign (set_fmconfigcommand3 (configcommand e)) ;;
  e <- fmcommandinfo definition 2 ;;
  assign (set_fmcommand3 (command e)) ;;
  assign (set_fopcommandinfo (CommandParsed (def_fopcommandinfo definition))) ;;
  assign (set_fmsgcommandinfo
            (CommandParsed (def_fmsgcommandinfo definition))) ;;
  (* Request the Meter Blocks *)
  autoconfig_fastmeter verbose ;;
  autoconfig_fastmeter_demand verbose ;;
  autoconfig_fastmeter_peakdemand verbose ;;
  (* Request Relay DNA Block *)
  conn_write DNA ;;
  raw <- _read_to_prompt PROMPT ;;
  dna <- lift (RelayDnaBlock raw verbose) ;;
  assign (set_dnaDef (Some dna)) ;;
  (* Request Relay ID Block *)
  conn_write ID ;;
  raw <- _read_to_prompt PROMPT ;;
  id_block <- lift (RelayIdBlock raw verbose) ;;
  (* Store Relay Information *)
  assign (set_fid (FID id_block)) ;;
  assign (set_bfid (BFID id_block)) ;;
  assign (set_cid (CID id_block)) ;;
  assign (set_devid (DEVID id_block)) ;;
  assign (set_partno (PARTNO id_block)) ;;
  assign (set_config (CONFIG id_block)) ;;
  (* Return the Relay's FID *)
  gets fid.

(** The statements of [autoconfig] that come before the request of the meter
    blocks (source lines 368 to 385): escalation, the relay definition
    exchange and the assignment of the command codes.  Lemma
    [autoconfig_after_definition] shows that [autoconfig] runs them first. *)
Definition autoconfig_relay_definition (verbose : bool) (kwargs : Kwargs)
  : M unit :=
  lvl <- access_level ;;
  (if fst lvl =? 0 then
     _ <- access_level_1 kwargs ;; ret tt
   else ret tt) ;;
  conn_write (RELAY_DEFENITION ++ CR) ;;
  raw <- _read_command_response RELAY_DEFENITION PROMPT ;;
  definition <- lift (RelayDefinitionBlock raw verbose) ;;
  e <- fmcommandinfo definition 0 ;;
  assign (set_fmconfigcommand1 (configcommand e)) ;;
  e <- fmcommandinfo definition 0 ;;
  assign (set_fmcommand1 (command e)) ;;
  e <- fmcommandinfo definition 1 ;;
  assign (set_fmconfigcommand2 (configcommand e)) ;;
  e <- fmcommandinfo definition 1 ;;
  assign (set_fmcommand2 (command e)) ;;
  e <- fmcommandinfo definition 2 ;;
  assign (set_fmconfigcommand3 (configcommand e)) ;;
  e <- fmcommandinfo definition 2 ;;
  assign (set_fmcommand3 (command e)) ;;
  assign (set_fopcommandinfo (CommandParsed (def_fopcommandinfo definition))) ;;
  assign (set_fmsgcommandinfo
            (CommandParsed (def_fmsgcommandinfo definition))).

(** The statements of [autoconfig] that come after the meter blocks (source
    lines 392 to 412): the DNA block, the ID block and the identity
    fields. *)
Definition autoconfig_dna_and_id (verbose : bool) : M string :=
  conn_write DNA ;;
  raw <- _read_to_prompt PROMPT ;;
  dna <- lift (RelayDnaBlock raw verbose) ;;
  assign (set_dnaDef (Some dna)) ;;
  conn_write ID ;;
  raw <- _read_to_prompt PROMPT ;;
  id_block <- lift (RelayIdBlock raw verbose) ;;
  assign (set_fid (FID id_block)) ;;
  assign (set_bfid (BFID id_block)) ;;
  assign (set_cid (CID id_block)) ;;
  assign (set_devid (DEVID id_block)) ;;
  assign (set_partno (PARTNO id_block)) ;;
  assign (set_config (CONFIG id_block)) ;;
  gets fid.

(** The message of the [ValueError] that [poll_fast_meter] raises. *)
Definition not_configured : exn :=
  ValueError "Client has not been auto-configured yet!".

(** [poll_fast_meter]; the arguments of [protoparser.FastMeterBlock] are
    evaluated from left to right. *)
Definition poll_fast_meter (minAccLevel : Z) (verbose : bool)
  (kwargs : Kwargs) : M MeterBlock :=
  (* Verify that Configuration is Valid *)
  def <- gets fastMeterDef ;;
  (match def with
   | None => raise not_configured
   | Some _ => ret tt
   end) ;;
  (* Raise to Appropriate Access Level if Needed *)
  (if minAccLevel =? 1 then _ <- access_level_1 kwargs ;; ret tt
   else ret tt) ;;
  (if minAccLevel =? 2 then _ <- access_level_2 kwargs ;; ret tt
   else ret tt) ;;
  (* Poll Client for Data *)
  cmd <- gets fmcommand1 ;;
  conn_write (cmd ++ CR) ;;
  cmd <- gets fmcommand1 ;;
  raw <- _read_command_response cmd PROMPT ;;
  def <- gets fastMeterDef ;;
  dna <- getattr "dnaDef" dnaDef ;;
  lift (FastMeterBlock raw def dna verbose).

(** The attribute values that [__init__] assigns before it talks to the
    relay. *)
Definition initial_attributes (connApi : Conn) (validConnChecks : Z)
  (verbose debug : bool) : SelClient :=
  {| conn := connApi;
     verbose := verbose;
     check := validConnChecks;
     debug := debug;
     (* Define Basic Parameter Defaults *)
     fid := EmptyString;
     bfid := EmptyString;
     cid := EmptyString;
     devid := EmptyString;
     partno := EmptyString;
     config := EmptyString;
     (* Define the Various Command Defaults *)
     fmconfigcommand1 := FM_CONFIG_BLOCK;
     fmcommand1 := FM_DEMAND_CONFIG_BLOCK;
     fmconfigcommand2 := FM_PEAK_CONFIG_BLOCK;
     fmcommand2 := FAST_METER_REGULAR;
     fmconfigcommand3 := FAST_METER_DEMAND;
     fmcommand3 := FAST_METER_PEAK_DEMAND;
     fopcommandinfo := CommandBytes FO_CONFIG_BLOCK;
     fmsgcommandinfo := CommandBytes FAST_MSG_CONFIG_BLOCK;
     (* Allocate Space for Relay Definition Responses *)
     fastMeterDef := None;
     fastDemandDef := None;
     fastPkDemandDef := None;
     dnaDef := None |}.

(** [__init__]: the outcome of the constructor and the attributes that it
    leaves behind. *)
Definition __init__ (connApi : Conn) (autoconfig_now : bool)
  (validConnChecks : Z) (verbose debug : bool) : result unit * SelClient :=
  ((* Verify Connection by Searching for Prompt *)
   connected <- _verify_connection ;;
   (if negb connected then raise (ValueError "Could not verify connection.")
    else ret tt) ;;
   quit ;;
   if autoconfig_now then
     (* Run Auto-Configuration *)
     _ <- autoconfig debug no_kwargs ;; ret tt
   else ret tt)
    (initial_attributes connApi validConnChecks verbose debug).

(** ** Vocabulary of the statements about methods *)

(** What [access_level] reports for the accumulated response [resp] of its
    two probes. *)
Definition prompt_level (resp : bytes) : Z * string :=
  if bytes_in LEVEL_C resp then (3, "CAL"%string)
  else if bytes_in LEVEL_2 resp then (2, "2AC"%string)
  else if bytes_in LEVEL_1 resp then (1, "ACC"%string)
  else (0, EmptyString).

(** The prompt marker of an access level above 0. *)
Definition level_marker (level : Z) : bytes :=
  if level =? 3 then LEVEL_C
  else if level =? 2 then LEVEL_2
  else LEVEL_1.

(** [s'] is [s] after some traffic on the connection: [sent] was written and
    [left] is what remains to be read; every other attribute is the same. *)
Definition traffic (s : SelClient) (sent : list bytes) (left : list bytes)
  (s' : SelClient) : Prop :=
  s' = set_conn {| written := written (conn s) ++ sent; pending := left |} s.

(** A computation that only talks to the relay: it changes nothing but the
    connection, on which it only appends to what was written. *)
Definition conn_only {A} (m : M A) : Prop :=
  forall s, exists sent left, traffic s sent left (snd (m s)).

(** The block configurations and the identity that the object stores. *)
Definition stored_configuration (s : SelClient) :=
  (fastMeterDef s, fastDemandDef s, fastPkDemandDef s, dnaDef s,
   (fid s, bfid s, cid s, devid s, partno s, config s)).


(** A computation that only talks to the relay and that can only fail because
    the connection is closed. *)
Definition transport_only {A} (m : M A) : Prop :=
  conn_only m /\ forall s e, fst (m s) = Raise e -> e = EOFError.

(** A property of the object that does not look at the connection. *)
Definition conn_blind (P : SelClient -> Prop) : Prop :=
  forall c s, P s -> P (set_conn c s).

(** A computation that maintains the property [P] of the object, whether it
    returns or raises. *)
Definition keeps {A} (P : SelClient -> Prop) (m : M A) : Prop :=
  forall s, P s -> P (snd (m s)).

(** The command codes and command descriptors that the object stores. *)
Definition command_codes (s : SelClient) :=
  (fmconfigcommand1 s, fmcommand1 s, fmconfigcommand2 s, fmcommand2 s,
   fmconfigcommand3 s, fmcommand3 s, fopcommandinfo s, fmsgcommandinfo s).

End Methods.

End Client.

(* ================================================================== *)
(** * A test double

    Constants and parsers of a synthetic relay, used to run the client on
    concrete transcripts.  The general statements below hold for every
    instance of [Commands] and [Protoparser]. *)
(* ================================================================== *)

Module Double.
Import Client.

Definition crlf : bytes := [x0d; x0a].

#[export] Instance sample_commands : Commands := {|
  CR := crlf;
  LEVEL_0 := b "=";
  LEVEL_1 := b "=>";
  LEVEL_2 := b "=>>";
  LEVEL_C := b "==>>";
  PROMPT := b "=";
  QUIT := b "QUI" ++ crlf;
  GO_ACC := b "ACC" ++ crlf;
  GO_2AC := b "2AC" ++ crlf;
  PASS_ACC := b "OTTER";
  PASS_2AC := b "TAIL";
  RELAY_DEFENITION := [xa5; xc0];
  DNA := b "DNA" ++ crlf;
  ID := b "ID" ++ crlf;
  FM_CONFIG_BLOCK := [xa5; xc1];
  FM_DEMAND_CONFIG_BLOCK := [xa5; xc2];
  FM_PEAK_CONFIG_BLOCK := [xa5; xc3];
  FAST_METER_REGULAR := [xa5; xd1];
  FAST_METER_DEMAND := [xa5; xd2];
  FAST_METER_PEAK_DEMAND := [xa5; xd3];
  FO_CONFIG_BLOCK := [xa5; xce];
  FAST_MSG_CONFIG_BLOCK := [xa5; x46]
|}.

(** The parsers of the double reject a response that contains [BAD] and keep
    the raw bytes of any other response as the parsed block. *)
Definition unparseable (raw : bytes) : bool := bytes_in (b "BAD") raw.

Definition parse_raw (raw : bytes) : result bytes :=
  if unparseable raw then Raise (ParserError "unparseable block") else Ok raw.

Definition sample_definition : RelayDefinition bytes :=
  {| def_fmcommandinfo :=
       [ {| configcommand := [xa5; xc1]; command := [xa5; xd1] |};
         {| configcommand := [xa5; xc2]; command := [xa5; xd2] |};
         {| configcommand := [xa5; xc3]; command := [xa5; xd3] |} ];
     def_fopcommandinfo := [xa5; xce];
     def_fmsgcommandinfo := [xa5; x46] |}.

Definition sample_id (raw : bytes) : IdBlock :=
  {| FID := string_of_list_byte raw;
     BFID := "BFID";
     CID := "CID";
     DEVID := "DEVID";
     PARTNO := "PARTNO";
     CONFIG := "CONFIG" |}.

#[export] Instance sample_parser : Protoparser := {|
  CommandInfo := bytes;
  ConfigBlock := bytes;
  DnaBlock := bytes;
  MeterBlock := bytes * option bytes * bytes;
  RelayDefinitionBlock := fun raw _ =>
    if unparseable raw then Raise (ParserError "unparseable block")
    else Ok sample_definition;
  FastMeterConfigurationBlock := fun raw _ => parse_raw raw;
  RelayDnaBlock := fun raw _ => parse_raw raw;
  RelayIdBlock := fun raw _ =>
    if unparseable raw then Raise (ParserError "unparseable block")
    else Ok (sample_id raw);
  FastMeterBlock := fun raw def dna _ => Ok (raw, def, dna)
|}.

(** A connection on which nothing was written yet and on which the relay is
    going to deliver [chunks]. *)
Definition fresh_conn (chunks : list bytes) : Conn :=
  {| written := []; pending := chunks |}.

(** The client that [SelClient(conn, autoconfig_now=False)] constructs when
    the relay answers the connection check and the [QUIT] command with its
    level 0 prompt and is then going to deliver [chunks]. *)
Definition new_client (chunks : list bytes) : SelClient :=
  snd (__init__ (fresh_conn (b "=" :: b "=" :: chunks)) false 5 false false).

(** What the relay delivers during a run of [autoconfig] from level 0: the
    prompts of the two level queries, the answer to the password, the relay
    definition block after its echoed command, then the three configuration
    blocks, the DNA block and the ID block. *)
Definition autoconfig_transcript (cfg1 cfg2 cfg3 dna ident : bytes)
  : list bytes :=
  [ b "="; b "="; b "="; b "="; b "=>";
    [xa5; xc0] ++ b "definition";
    cfg1; cfg2; cfg3; dna; ident ].

(** A client whose first configuration block is going to be unparseable. *)
Definition client_bad_regular : SelClient :=
  new_client
    (autoconfig_transcript (b "BAD") (b "demand") (b "peak") (b "dna")
       (b "FID=1")).




(** Floating-point operations of the double: a coarse [log10], the binary
    logarithm of the argument scaled by 1233/4096, and a [round] that keeps
    the value as it is. *)
#[export] Instance sample_float_ops : Common.FloatOps := {|
  Common.libm_log10 := fun m e =>
    match (Z.log2 (Zpos m) + e) * 1233 with
    | Z0 => S754_zero false
    | Zpos p => S754_finite false p (-12)
    | Zneg p => S754_finite true p (-12)
    end;
  Common.float_round := fun x _ => x
|}.


(** A client after a successful [autoconfig] and a [quit], on whose
    connection the relay is going to reject the ACC password and then to
    answer a poll. *)
Definition client_rejected : SelClient :=
  snd (quit
         (snd (autoconfig false no_kwargs
                 (new_client
                    (autoconfig_transcript (b "regular") (b "demand")
                       (b "peak") (b "dna") (b "FID=1")
                     ++ [ b "="; b "="; b "="; b "Invalid Password";
                          [xa5; xd1] ++ b "data" ]))))).
End Double.

(* ================================================================== *)
(** * Properties of common.py *)
(* ================================================================== *)

Module CommonSpec.
Import Common.

(** ** Bit sequences *)

Lemma recompose_app (l1 l2 : list bool) :
  recompose (l1 ++ l2)
  = recompose l1 + 2 ^ Z.of_nat (List.length l1) * recompose l2.
Proof.
  induction l1 as [|x l1 IH].
  - cbn [List.app recompose List.length]. change (2 ^ Z.of_nat 0) with 1. lia.
  - cbn [List.app recompose List.length].
    rewrite IH, Nat2Z.inj_succ, Z.pow_succ_r by lia. lia.
Qed.

Lemma recompose_repeat_false (k : nat) : recompose (repeat false k) = 0.
Proof.
  induction k as [|k IH]; cbn [repeat recompose Z.b2z]; lia.
Qed.

Lemma recompose_pad (l : list bool) (k : nat) :
  recompose (l ++ repeat false k) = recompose l.
Proof.
  rewrite recompose_app, recompose_repeat_false. lia.
Qed.

Lemma recompose_bin_digits (p : positive) :
  recompose (map is_one (rev (bin_digits p))) = Zpos p.
Proof.
  induction p as [q IH|q IH|]; cbn [bin_digits].
  - rewrite rev_app_distr. cbn [rev List.app map recompose].
    rewrite IH. change (is_one "1"%char) with true. cbn [Z.b2z]. lia.
  - rewrite rev_app_distr. cbn [rev List.app map recompose].
    rewrite IH. change (is_one "0"%char) with false. cbn [Z.b2z]. lia.
  - reflexivity.
Qed.

Lemma recompose_bin_abs (n : Z) :
  0 <= n -> recompose (map is_one (rev (bin_abs n))) = n.
Proof.
  destruct n as [|p|p]; intros Hn.
  - reflexivity.
  - apply recompose_bin_digits.
  - lia.
Qed.

Lemma format_04b_nonneg (n : Z) :
  0 <= n ->
  format_04b n
  = repeat "0"%char (4 - List.length (bin_abs n)) ++ bin_abs n.
Proof.
  intros Hn. unfold format_04b.
  replace (n <? 0) with false by (symmetry; apply Z.ltb_ge; exact Hn).
  reflexivity.
Qed.

(** The bits before padding to a byte boundary. *)
Lemma bits_of_format_04b (n : Z) :
  0 <= n ->
  map is_one (rev (format_04b n))
  = map is_one (rev (bin_abs n))
      ++ repeat false (4 - List.length (bin_abs n)).
Proof.
  intros Hn. rewrite format_04b_nonneg by exact Hn.
  rewrite rev_app_distr, map_app, rev_repeat, map_repeat. reflexivity.
Qed.

Lemma recompose_format_04b (n : Z) :
  0 <= n -> recompose (map is_one (rev (format_04b n))) = n.
Proof.
  intros Hn. rewrite bits_of_format_04b by exact Hn.
  rewrite recompose_pad. apply recompose_bin_abs. exact Hn.
Qed.

(** [int_to_bool_list] without reversal is the bits of [format_04b] followed
    by some number of [False]. *)
Lemma int_to_bool_list_shape (n : Z) (byte_like : bool) :
  exists k, int_to_bool_list n byte_like false
            = map is_one (rev (format_04b n)) ++ repeat false k.
Proof.
  unfold int_to_bool_list.
  destruct (byte_like &&
            negb (Nat.eqb
                    (Nat.modulo
                       (List.length (map is_one (rev (format_04b n)))) 8) 0)).
  - eexists. reflexivity.
  - exists 0%nat. cbn [repeat]. rewrite app_nil_r. reflexivity.
Qed.

Lemma int_to_bool_list_reverse (n : Z) (byte_like : bool) :
  int_to_bool_list n byte_like true = rev (int_to_bool_list n byte_like false).
Proof.
  unfold int_to_bool_list.
  destruct (byte_like && _); reflexivity.
Qed.

Lemma recompose_int_to_bool_list (n : Z) (byte_like : bool) :
  0 <= n -> recompose (int_to_bool_list n byte_like false) = n.
Proof.
  intros Hn. destruct (int_to_bool_list_shape n byte_like) as [k ->].
  rewrite recompose_pad. apply recompose_format_04b. exact Hn.
Qed.

(** The number of digits of a positive number is its bit length. *)
Lemma bin_digits_length (p : positive) :
  2 ^ (Z.of_nat (List.length (bin_digits p)) - 1) <= Zpos p
  < 2 ^ Z.of_nat (List.length (bin_digits p)).
Proof.
  induction p as [q IH|q IH|]; cbn [bin_digits].
  - rewrite length_app. cbn [List.length].
    replace (Z.of_nat (List.length (bin_digits q) + 1) - 1)
      with (Z.succ (Z.of_nat (List.length (bin_digits q)) - 1)) by lia.
    replace (Z.of_nat (List.length (bin_digits q) + 1))
      with (Z.succ (Z.of_nat (List.length (bin_digits q)))) by lia.
    assert (1 <= List.length (bin_digits q))%nat
      by (destruct q; cbn [bin_digits]; rewrite ?length_app; cbn; lia).
    rewrite !Z.pow_succ_r by lia. lia.
  - rewrite length_app. cbn [List.length].
    replace (Z.of_nat (List.length (bin_digits q) + 1) - 1)
      with (Z.succ (Z.of_nat (List.length (bin_digits q)) - 1)) by lia.
    replace (Z.of_nat (List.length (bin_digits q) + 1))
      with (Z.succ (Z.of_nat (List.length (bin_digits q)))) by lia.
    assert (1 <= List.length (bin_digits q))%nat
      by (destruct q; cbn [bin_digits]; rewrite ?length_app; cbn; lia).
    rewrite !Z.pow_succ_r by lia. lia.
  - cbn. lia.
Qed.

(** The leading digit of a positive number is a one. *)
Lemma bin_digits_head (p : positive) :
  exists t, bin_digits p = "1"%char :: t.
Proof.
  induction p as [q [t IH]|q [t IH]|]; cbn [bin_digits].
  - rewrite IH. eexists. reflexivity.
  - rewrite IH. eexists. reflexivity.
  - eexists. reflexivity.
Qed.

(** A number of at least four binary digits is formatted without fill. *)
Lemma int_to_bool_list_wide (n : Z) :
  8 <= n ->
  int_to_bool_list n false false = map is_one (rev (bin_abs n)).
Proof.
  intros Hn. unfold int_to_bool_list. cbn [andb].
  rewrite bits_of_format_04b by lia.
  destruct n as [|p|p]; try lia. cbn [bin_abs].
  pose proof (bin_digits_length p) as [_ Hlt].
  assert (4 <= List.length (bin_digits p))%nat as Hlen.
  { destruct (Nat.le_gt_cases 4 (List.length (bin_digits p))) as [|Hs];
      [assumption|exfalso].
    assert (2 ^ Z.of_nat (List.length (bin_digits p)) <= 2 ^ 3)
      by (apply Z.pow_le_mono_r; lia).
    change (2 ^ 3) with 8 in *. lia. }
  replace (4 - List.length (bin_digits p))%nat with 0%nat by lia.
  cbn [repeat]. apply app_nil_r.
Qed.

(** C6: for every integer [n >= 0], the bits that [int_to_bool_list] returns,
    read with the least significant bit first and the most significant bit
    last, recompose to [n], with and without padding to a byte boundary (and
    in the opposite order when [reverse] is set); [int_to_bool_list(8)] is
    [[False, False, False, True]], and with [byte_like=True] it has 8 elements
    whose high 4 bits are [False]. *)
Theorem int_to_bool_list_recomposes (n : Z) (Hn : 0 <= n) :
  (forall byte_like, recompose (int_to_bool_list n byte_like false) = n) /\
  (forall byte_like, recompose (rev (int_to_bool_list n byte_like true)) = n) /\
  int_to_bool_list 8 false false = [false; false; false; true] /\
  int_to_bool_list 8 true false
  = [false; false; false; true; false; false; false; false].
Proof.
  split; [|split; [|split]].
  - intros byte_like. apply recompose_int_to_bool_list. exact Hn.
  - intros byte_like. rewrite int_to_bool_list_reverse, rev_involutive.
    apply recompose_int_to_bool_list. exact Hn.
  - reflexivity.
  - reflexivity.
Qed.

Lemma int_to_bool_list_recomposes_witness :
  0 <= 300 /\
  recompose (int_to_bool_list 300 true false) = 300.
Proof.
  split; [lia|].
  apply (proj1 (int_to_bool_list_recomposes 300 ltac:(lia))).
Defined.

(** C7 as the spec words it does not hold: the value 0 is formatted with the
    minimum width of four digits, so the result is not a single [False]. *)
Lemma int_to_bool_list_zero_not_single :
  int_to_bool_list 0 false false <> [false].
Proof.
  discriminate.
Qed.

(** C7, amended: [int_to_bool_list(0)] is four times [False] (eight with
    [byte_like]); a value that needs more than 8 bits comes back with all of
    its bits: as many elements as the value has binary digits, the last one
    [True], and they recompose to the value. *)
Theorem int_to_bool_list_zero_and_wide (n : Z) (Hn : 256 <= n) :
  int_to_bool_list 0 false false = [false; false; false; false] /\
  int_to_bool_list 0 true false = repeat false 8 /\
  let bits := int_to_bool_list n false false in
  (8 < List.length bits)%nat /\
  2 ^ (Z.of_nat (List.length bits) - 1) <= n < 2 ^ Z.of_nat (List.length bits) /\
  last bits false = true /\
  recompose bits = n.
Proof.
  split; [reflexivity|split; [reflexivity|]].
  cbv zeta.
  assert (Hlen :
    2 ^ (Z.of_nat (List.length (int_to_bool_list n false false)) - 1) <= n
    < 2 ^ Z.of_nat (List.length (int_to_bool_list n false false))).
  { rewrite int_to_bool_list_wide by lia.
    rewrite length_map, length_rev.
    destruct n as [|p|p]; try lia. exact (bin_digits_length p). }
  split; [|split; [exact Hlen|split]].
  - destruct (Nat.le_gt_cases (List.length (int_to_bool_list n false false)) 8)
      as [Hs|Hs]; [exfalso|exact Hs].
    assert (2 ^ Z.of_nat (List.length (int_to_bool_list n false false))
            <= 2 ^ 8) by (apply Z.pow_le_mono_r; lia).
    change (2 ^ 8) with 256 in *. lia.
  - rewrite int_to_bool_list_wide by lia.
    destruct n as [|p|p]; try lia. cbn [bin_abs].
    destruct (bin_digits_head p) as [t ->].
    cbn [rev]. rewrite map_app. cbn [map]. apply last_last.
  - apply recompose_int_to_bool_list. lia.
Qed.

Lemma int_to_bool_list_zero_and_wide_witness :
  256 <= 300 /\
  List.length (int_to_bool_list 300 false false) = 9%nat /\
  recompose (int_to_bool_list 300 false false) = 300.
Proof.
  split; [lia|].
  pose proof (int_to_bool_list_zero_and_wide 300 ltac:(lia)) as H.
  split; [reflexivity|apply H].
Defined.

(** ** More on [int_to_bool_list] *)

Lemma format_04b_neg (n : Z) :
  n < 0 ->
  format_04b n
  = "-"%char :: repeat "0"%char (3 - List.length (bin_abs n)) ++ bin_abs n.
Proof.
  intros Hn. unfold format_04b.
  replace (n <? 0) with true by (symmetry; apply Z.ltb_lt; exact Hn).
  reflexivity.
Qed.

Lemma recompose_bin_abs_any (n : Z) :
  recompose (map is_one (rev (bin_abs n))) = Z.abs n.
Proof.
  destruct n as [|p|p]; [reflexivity| |]; apply recompose_bin_digits.
Qed.

(** X1: The sign of the number is not in the result: the ['-'] that [format]
    puts in front is one more [False] at the end, so a negative number gives
    the bits of its absolute value. *)
Theorem int_to_bool_list_drops_sign (n : Z) (byte_like : bool) :
  recompose (int_to_bool_list n byte_like false) = Z.abs n /\
  recompose (rev (int_to_bool_list n byte_like true)) = Z.abs n.
Proof.
  assert (H : recompose (int_to_bool_list n byte_like false) = Z.abs n).
  { destruct (int_to_bool_list_shape n byte_like) as [k ->].
    rewrite recompose_pad.
    destruct (Z.lt_ge_cases n 0) as [Hn|Hn].
    - rewrite format_04b_neg by exact Hn.
      cbn [rev]. rewrite rev_app_distr, !map_app, rev_repeat, map_repeat.
      cbn [map]. change (is_one "-"%char) with false.
      change (is_one "0"%char) with false.
      rewrite <- app_assoc.
      change [false] with (repeat false 1). rewrite <- repeat_app.
      rewrite recompose_pad. apply recompose_bin_abs_any.
    - rewrite recompose_format_04b by exact Hn. lia. }
  split; [exact H|].
  rewrite int_to_bool_list_reverse, rev_involutive. exact H.
Qed.

(** X2: With [byte_like] the result is the unpadded result followed by fewer
    than 8 times [False], and its length is a multiple of 8. *)
Theorem int_to_bool_list_byte_like (n : Z) :
  exists k,
    (k < 8)%nat /\
    int_to_bool_list n true false
    = int_to_bool_list n false false ++ repeat false k /\
    Nat.modulo (List.length (int_to_bool_list n true false)) 8 = 0%nat.
Proof.
  unfold int_to_bool_list. cbn [andb].
  set (bits := map is_one (rev (format_04b n))).
  pose proof (Nat.div_mod_eq (List.length bits) 8) as Hdm.
  pose proof (Nat.mod_upper_bound (List.length bits) 8 ltac:(lia)) as Hub.
  destruct (Nat.eqb (Nat.modulo (List.length bits) 8) 0) eqn:E; cbn [negb].
  - apply Nat.eqb_eq in E. exists 0%nat. cbn [repeat].
    rewrite app_nil_r. repeat split; [lia|exact E].
  - apply Nat.eqb_neq in E.
    exists ((Nat.div (List.length bits) 8 + 1) * 8 - List.length bits)%nat.
    split; [lia|split; [reflexivity|]].
    rewrite length_app, repeat_length.
    replace (List.length bits
             + ((Nat.div (List.length bits) 8 + 1) * 8 - List.length bits))%nat
      with ((Nat.div (List.length bits) 8 + 1) * 8)%nat by lia.
    apply Nat.Div0.mod_mul.
Qed.

(** X3: Without [byte_like] the result of a number that is not negative has as
    many elements as the number has binary digits, and at least 4. *)
Theorem int_to_bool_list_length (n : Z) (Hn : 0 <= n) :
  Z.of_nat (List.length (int_to_bool_list n false false))
  = Z.max 4 (Z.log2 n + 1).
Proof.
  unfold int_to_bool_list. cbn [andb].
  rewrite bits_of_format_04b by exact Hn.
  rewrite length_app, length_map, length_rev, repeat_length.
  assert (Hlen : Z.of_nat (List.length (bin_abs n)) = Z.log2 n + 1).
  { destruct n as [|p|p]; [reflexivity| |lia]. cbn [bin_abs].
    pose proof (bin_digits_length p) as [Hlo Hhi].
    destruct (bin_digits_head p) as [t Ht].
    assert (1 <= List.length (bin_digits p))%nat
      by (rewrite Ht; cbn [List.length]; lia).
    rewrite (Z.log2_unique (Zpos p)
               (Z.of_nat (List.length (bin_digits p)) - 1)); [lia|lia|].
    replace (Z.succ (Z.of_nat (List.length (bin_digits p)) - 1))
      with (Z.of_nat (List.length (bin_digits p))) by lia.
    split; assumption. }
  lia.
Qed.

Lemma int_to_bool_list_length_witness :
  0 <= 5 /\ List.length (int_to_bool_list 5 false false) = 4%nat.
Proof.
  split; [lia|].
  pose proof (int_to_bool_list_length 5 ltac:(lia)) as H.
  change (Z.max 4 (Z.log2 5 + 1)) with 4 in H. lia.
Defined.

(** ** [ieee4bytefps] *)

Section FloatFacts.
Context {ops : FloatOps}.

(** [struct.unpack] accepts exactly the inputs of length 4. *)
Lemma struct_unpack_f_length (bs : list byte) :
  (exists x, struct_unpack_f bs = Ok x) <-> List.length bs = 4%nat.
Proof.
  split.
  - intros [x Hx].
    destruct bs as [|b0 [|b1 [|b2 [|b3 [|b4 bs]]]]]; cbn in Hx;
      try discriminate; reflexivity.
  - intros Hlen.
    destruct bs as [|b0 [|b1 [|b2 [|b3 [|b4 bs]]]]]; cbn in Hlen;
      try discriminate.
    eexists. reflexivity.
Qed.

(** An input whose length is not 4 makes [ieee4bytefps] raise
    [struct.error]. *)
Lemma ieee4bytefps_wrong_length (bs : list byte) (digits : Z) :
  List.length bs <> 4%nat -> ieee4bytefps bs digits = Raise StructError.
Proof.
  intros Hlen. unfold ieee4bytefps.
  destruct bs as [|b0 [|b1 [|b2 [|b3 [|b4 bs]]]]]; cbn in Hlen |- *;
    try reflexivity.
  congruence.
Qed.

(** [magnitude] raises on every value that is infinite or not a number. *)
Lemma magnitude_not_finite (x : pyfloat) :
  is_finite x = false -> exists e, magnitude x = Raise e.
Proof.
  destruct x as [s|s| |s m e]; cbn; intros Hx; try discriminate;
    eexists; reflexivity.
Qed.

(** Every input that unpacks to an infinity or a NaN (the 4-byte inputs whose
    exponent field is all ones) makes [ieee4bytefps] raise. *)
Lemma ieee4bytefps_not_finite (bs : list byte) (x : pyfloat) (digits : Z) :
  struct_unpack_f bs = Ok x -> is_finite x = false ->
  exists e, ieee4bytefps bs digits = Raise e.
Proof.
  intros Hbs Hx. unfold ieee4bytefps, round_total_digits.
  rewrite Hbs. cbn [result_bind].
  destruct (magnitude_not_finite x Hx) as [e ->].
  exists e. reflexivity.
Qed.

(** The bytes of 1.0 and of the binary32 number nearest to 123.456: the
    first byte is the most significant one. *)
Example struct_unpack_f_one :
  struct_unpack_f [x3f; x80; x00; x00] = Ok (S754_finite false 8388608 (-23)).
Proof. reflexivity. Qed.

Example struct_unpack_f_123_456 :
  struct_unpack_f [x42; xf6; xe9; x79]
  = Ok (S754_finite false 16181625 (-17)).
Proof. reflexivity. Qed.

(** The magnitude of either zero is 0, so a zero is rounded to
    [total_digits] places. *)
Lemma ieee4bytefps_zero (b0 : byte) (digits : Z) (sign : bool) :
  struct_unpack_f [b0; x00; x00; x00] = Ok (S754_zero sign) ->
  ieee4bytefps [b0; x00; x00; x00] digits
  = Ok (float_round (S754_zero sign) digits).
Proof.
  intros H. unfold ieee4bytefps, round_total_digits. rewrite H.
  cbn [result_bind magnitude float_is_zero]. rewrite Z.sub_0_r. reflexivity.
Qed.

(** C9: [ieee4bytefps] does not return a float for every 4-byte input.  The
    bytes [7f 80 00 00] and [ff 80 00 00] are the two infinities, on which
    [math.floor] raises [OverflowError], and [7f c0 00 00] is a NaN, on which
    it raises [ValueError]; this for every number of digits. *)
Theorem ieee4bytefps_infinity_nan_raise (digits : Z) :
  ieee4bytefps [x7f; x80; x00; x00] digits
  = Raise (OverflowError "cannot convert float infinity to integer") /\
  ieee4bytefps [xff; x80; x00; x00] digits
  = Raise (OverflowError "cannot convert float infinity to integer") /\
  ieee4bytefps [x7f; xc0; x00; x00] digits
  = Raise (ValueError "cannot convert float NaN to integer").
Proof.
  repeat split; reflexivity.
Qed.

(** ** More on [ieee4bytefps] *)

(** The exceptions that [magnitude] can raise come from [math.log10] and
    [math.floor]. *)
Lemma magnitude_exceptions (x : pyfloat) (e : exn) :
  magnitude x = Raise e ->
  (exists msg, e = ValueError msg) \/ (exists msg, e = OverflowError msg).
Proof.
  unfold magnitude.
  destruct x as [s|s| |s m ex]; cbn [float_is_zero float_abs math_log10
                                      result_bind].
  - discriminate.
  - cbn [math_floor]. intros [= <-]. right. eexists. reflexivity.
  - cbn [math_floor]. intros [= <-]. left. eexists. reflexivity.
  - destruct (libm_log10 m ex) as [s'|s'| |s' m' e']; cbn [math_floor result_bind];
      try discriminate; intros [= <-];
      [right|left]; eexists; reflexivity.
Qed.

(** X4: [ieee4bytefps] raises [struct.error] on exactly the inputs whose length
    is not 4. *)
Theorem ieee4bytefps_struct_error (bs : list byte) (digits : Z) :
  ieee4bytefps bs digits = Raise StructError <-> List.length bs <> 4%nat.
Proof.
  split.
  - intros H Hlen.
    destruct (proj2 (struct_unpack_f_length bs) Hlen) as [x Hx].
    unfold ieee4bytefps, round_total_digits in H. rewrite Hx in H.
    cbn [result_bind] in H.
    destruct (magnitude x) as [mag|e] eqn:E; cbn [result_bind] in H;
      [discriminate|].
    injection H as ->.
    destruct (magnitude_exceptions x StructError E) as [[msg Hm]|[msg Hm]];
      discriminate.
  - apply ieee4bytefps_wrong_length.
Qed.

(** X5: Provided that the C library's [log10] returns a finite value on every
    finite positive argument, [ieee4bytefps] returns a float on exactly the
    4-byte inputs that unpack to a zero or a finite number, and the float is
    the value rounded to [total_digits] minus the magnitude places; on the
    infinities and on NaN it raises. *)
Theorem ieee4bytefps_returns_iff_finite
  (Hlog : forall m e, is_finite (libm_log10 m e) = true)
  (bs : list byte) (x : pyfloat) (digits : Z)
  (Hx : struct_unpack_f bs = Ok x) :
  (is_finite x = true ->
   exists mag, magnitude x = Ok mag /\
               ieee4bytefps bs digits = Ok (float_round x (digits - mag))) /\
  (is_finite x = false -> exists e, ieee4bytefps bs digits = Raise e).
Proof.
  split.
  - intros Hfin.
    assert (exists mag, magnitude x = Ok mag) as [mag Hmag].
    { unfold magnitude.
      destruct x as [s|s| |s m ex]; cbn in Hfin; try discriminate;
        cbn [float_is_zero float_abs math_log10 result_bind].
      - eexists. reflexivity.
      - specialize (Hlog m ex).
        destruct (libm_log10 m ex) as [s'|s'| |s' m' e']; cbn in Hlog;
          try discriminate; cbn [math_floor result_bind];
          eexists; reflexivity. }
    exists mag. split; [exact Hmag|].
    unfold ieee4bytefps, round_total_digits. rewrite Hx.
    cbn [result_bind]. rewrite Hmag. reflexivity.
  - intros Hfin. eapply ieee4bytefps_not_finite; eassumption.
Qed.

End FloatFacts.


Lemma ieee4bytefps_returns_iff_finite_witness :
  (forall m e, is_finite (libm_log10 (FloatOps := Double.sample_float_ops) m e)
               = true) /\
  struct_unpack_f [x42; xf6; xe9; x79]
  = Ok (S754_finite false 16181625 (-17)) /\
  ieee4bytefps (ops := Double.sample_float_ops) [x42; xf6; xe9; x79] 7
  = Ok (S754_finite false 16181625 (-17)).
Proof.
  assert (Hlog : forall m e,
             is_finite (libm_log10 (FloatOps := Double.sample_float_ops) m e)
             = true).
  { intros m e. cbn [libm_log10 Double.sample_float_ops].
    destruct ((Z.log2 (Zpos m) + e) * 1233); reflexivity. }
  split; [exact Hlog|split; [reflexivity|]].
  destruct (proj1 (ieee4bytefps_returns_iff_finite
                     (ops := Double.sample_float_ops) Hlog
                     [x42; xf6; xe9; x79] _ 7 eq_refl) eq_refl)
    as (mag & _ & E).
  rewrite E. reflexivity.
Defined.

Lemma ieee4bytefps_struct_error_witness :
  List.length [x00; x00; x00] <> 4%nat /\
  ieee4bytefps (ops := Double.sample_float_ops) [x00; x00; x00] 7
  = Raise StructError.
Proof.
  assert (H : List.length [x00; x00; x00] <> 4%nat) by (cbn; lia).
  split; [exact H|].
  apply (proj2 (ieee4bytefps_struct_error (ops := Double.sample_float_ops)
                  [x00; x00; x00] 7) H).
Defined.
End CommonSpec.

(* ================================================================== *)
(** * Properties of __init__.py *)
(* ================================================================== *)

Module ClientSpec.
Import Client.

Section General.
Context {cmds : Commands} {pp : Protoparser}.
Local Open Scope client_scope.

(** ** [bytes] *)

Lemma bytes_find_from_in (sub s : bytes) (i : Z) :
  0 <= i ->
  (bytes_find_from i sub s = -1 <-> bytes_in sub s = false).
Proof.
  revert i. induction s as [|x s IH]; intros i Hi; cbn [bytes_find_from bytes_in].
  - destruct (startswith sub []); cbn [orb]; split; intros H;
      try reflexivity; try discriminate; lia.
  - destruct (startswith sub (x :: s)); cbn [orb].
    + split; intros H; [lia|discriminate].
    + apply IH. lia.
Qed.

(** [response.find(command) == -1] says that [command] is not in
    [response]. *)
Lemma bytes_find_in (s sub : bytes) :
  (bytes_find s sub =? -1) = negb (bytes_in sub s).
Proof.
  unfold bytes_find.
  pose proof (bytes_find_from_in sub s 0 ltac:(lia)) as H.
  destruct (bytes_in sub s); cbn [negb].
  - apply Z.eqb_neq. intros E. apply H in E. discriminate.
  - apply Z.eqb_eq. apply H. reflexivity.
Qed.

(** ** The connection *)

Lemma set_conn_same (s : SelClient) : set_conn (conn s) s = s.
Proof. destruct s. reflexivity. Qed.

Lemma traffic_none (s : SelClient) : traffic s [] (pending (conn s)) s.
Proof.
  unfold traffic. rewrite app_nil_r.
  destruct s as [[w p] ? ? ? ? ? ? ? ? ? ? ? ? ? ? ? ? ? ? ? ? ?]. reflexivity.
Qed.

Lemma traffic_then (s s1 s2 : SelClient) (w1 w2 p1 p2 : list bytes) :
  traffic s w1 p1 s1 -> traffic s1 w2 p2 s2 -> traffic s (w1 ++ w2) p2 s2.
Proof.
  unfold traffic. intros -> ->. cbn. rewrite app_assoc. reflexivity.
Qed.

Lemma traffic_attribute {X} (f : SelClient -> X) (s s' : SelClient)
  (w p : list bytes) :
  (forall c s0, f (set_conn c s0) = f s0) ->
  traffic s w p s' -> f s' = f s.
Proof.
  unfold traffic. intros Hf ->. apply Hf.
Qed.


Lemma conn_read_until_run (expected chunk : bytes) (rest : list bytes)
  (s : SelClient) :
  pending (conn s) = chunk :: rest ->
  conn_read_until expected s
  = (Ok chunk, set_conn {| written := written (conn s); pending := rest |} s).
Proof.
  intros H. unfold conn_read_until. rewrite H. reflexivity.
Qed.

(** ** Sequencing *)

Lemma bind_ok {A B} (m : M A) (k : A -> M B) (s s1 : SelClient) (a : A) :
  m s = (Ok a, s1) -> bind m k s = k a s1.
Proof. intros H. unfold bind. rewrite H. reflexivity. Qed.

Lemma bind_raise {A B} (m : M A) (k : A -> M B) (s s1 : SelClient) (e : exn) :
  m s = (Raise e, s1) -> bind m k s = (Raise e, s1).
Proof. intros H. unfold bind. rewrite H. reflexivity. Qed.

Lemma bind_assoc {A B C} (m : M A) (k : A -> M B) (g : B -> M C)
  (s : SelClient) :
  bind (bind m k) g s = bind m (fun a => bind (k a) g) s.
Proof.
  unfold bind. destruct (m s) as [[a|e] s1]; reflexivity.
Qed.

Lemma bind_ext {A B} (m : M A) (k1 k2 : A -> M B) (s : SelClient) :
  (forall a s1, k1 a s1 = k2 a s1) -> bind m k1 s = bind m k2 s.
Proof.
  intros H. unfold bind. destruct (m s) as [[a|e] s1]; [apply H|reflexivity].
Qed.

(** ** Computations that only talk to the relay *)

Lemma transport_only_ret {A} (a : A) : transport_only (ret a).
Proof.
  split.
  - intros s. exists [], (pending (conn s)). apply traffic_none.
  - intros s e. discriminate.
Qed.

Lemma conn_only_bind {A B} (m : M A) (k : A -> M B) :
  conn_only m -> (forall a, conn_only (k a)) -> conn_only (bind m k).
Proof.
  intros Hm Hk s. unfold bind. specialize (Hm s).
  destruct (m s) as [[a|e] s1]; cbn [snd] in Hm.
  - destruct Hm as (w1 & p1 & T1).
    destruct (Hk a s1) as (w2 & p2 & T2).
    exists (w1 ++ w2), p2. eapply traffic_then; eassumption.
  - exact Hm.
Qed.

Lemma transport_only_bind {A B} (m : M A) (k : A -> M B) :
  transport_only m -> (forall a, transport_only (k a)) ->
  transport_only (bind m k).
Proof.
  intros [Hm1 Hm2] Hk. split.
  - apply conn_only_bind; [exact Hm1|]. intros a. apply Hk.
  - intros s e. unfold bind. specialize (Hm2 s).
    destruct (m s) as [[a|e'] s1]; cbn [fst] in *.
    + apply (proj2 (Hk a)).
    + intros [= <-]. apply Hm2. reflexivity.
Qed.

Lemma transport_only_conn_write (data : bytes) :
  transport_only (conn_write data).
Proof.
  split.
  - intros s. exists [data], (pending (conn s)). reflexivity.
  - intros s e. discriminate.
Qed.

Lemma transport_only_conn_read_until (expected : bytes) :
  transport_only (conn_read_until expected).
Proof.
  split.
  - intros s. unfold conn_read_until.
    destruct (pending (conn s)) as [|chunk rest] eqn:E; cbn [snd].
    + exists [], (pending (conn s)). apply traffic_none.
    + exists [], rest. unfold traffic. rewrite app_nil_r. reflexivity.
  - intros s e. unfold conn_read_until.
    destruct (pending (conn s)); cbn [fst]; congruence.
Qed.

Lemma transport_only__read_to_prompt (prompt_str : bytes) :
  transport_only (_read_to_prompt prompt_str).
Proof. apply transport_only_conn_read_until. Qed.

(** The loop of [_read_command_response] writes nothing, and it ends with
    [EOFError] or with a response that contains the command. *)
Lemma _read_command_response_loop_spec (command prompt_str : bytes)
  (fuel : nat) :
  forall response s out,
    _read_command_response_loop fuel command prompt_str response s = Some out ->
    (exists left, traffic s [] left (snd out)) /\
    (fst out = Raise EOFError \/
     exists r, fst out = Ok r /\ bytes_in command r = true).
Proof.
  induction fuel as [|fuel IH]; intros response s out;
    cbn [_read_command_response_loop]; rewrite bytes_find_in;
    destruct (bytes_in command response) eqn:E; cbn [negb].
  - intros [= <-]. split; [exists (pending (conn s)); apply traffic_none|].
    right. exists response. split; [reflexivity|exact E].
  - discriminate.
  - intros [= <-]. split; [exists (pending (conn s)); apply traffic_none|].
    right. exists response. split; [reflexivity|exact E].
  - unfold _read_to_prompt, conn_read_until.
    destruct (pending (conn s)) as [|chunk rest] eqn:P.
    + intros [= <-]. split; [exists (pending (conn s)); apply traffic_none|].
      left. reflexivity.
    + intros H. apply IH in H. destruct H as [(left & T) R].
      split; [|exact R]. exists left.
      change (@nil bytes) with (@nil bytes ++ []).
      eapply traffic_then; [|exact T].
      unfold traffic. rewrite app_nil_r. reflexivity.
Qed.

(** The bound that [_read_command_response] gives to its loop is never
    reached. *)
Lemma _read_command_response_loop_fuel (command prompt_str : bytes)
  (fuel : nat) :
  forall response s,
    (List.length (pending (conn s)) < fuel)%nat ->
    _read_command_response_loop fuel command prompt_str response s <> None.
Proof.
  induction fuel as [|fuel IH]; intros response s Hlen.
  - lia.
  - cbn [_read_command_response_loop].
    destruct (bytes_find response command =? -1); [|discriminate].
    unfold _read_to_prompt, conn_read_until.
    destruct (pending (conn s)) as [|chunk rest] eqn:P; [discriminate|].
    apply IH. cbn. cbn in Hlen. lia.
Qed.

Lemma _read_command_response_spec (command prompt_str : bytes)
  (s : SelClient) :
  (exists left,
     traffic s [] left (snd (_read_command_response command prompt_str s))) /\
  (fst (_read_command_response command prompt_str s) = Raise EOFError \/
   exists r, fst (_read_command_response command prompt_str s) = Ok r /\
             bytes_in command r = true).
Proof.
  unfold _read_command_response.
  destruct (_read_command_response_loop _ command prompt_str [] s)
    as [out|] eqn:E.
  - eapply _read_command_response_loop_spec. exact E.
  - exfalso. revert E. apply _read_command_response_loop_fuel. lia.
Qed.

Lemma transport_only__read_command_response (command prompt_str : bytes) :
  transport_only (_read_command_response command prompt_str).
Proof.
  split.
  - intros s.
    destruct (_read_command_response_spec command prompt_str s)
      as [(left & T) _].
    exists [], left. exact T.
  - intros s e H.
    destruct (_read_command_response_spec command prompt_str s)
      as [_ [R|(r & R & _)]]; congruence.
Qed.

Create HintDb client.

#[local] Hint Resolve transport_only_ret transport_only_conn_write
  transport_only_conn_read_until transport_only__read_to_prompt
  transport_only__read_command_response : client.

Ltac transport :=
  repeat match goal with
         | |- transport_only (bind _ _) =>
             apply transport_only_bind; [|intros]
         | |- transport_only (if ?c then _ else _) => destruct c
         | |- transport_only _ => solve [auto with client]
         | |- transport_only _ => progress cbv zeta
         end.

Lemma transport_only_access_level : transport_only access_level.
Proof. unfold access_level. transport. Qed.

#[local] Hint Resolve transport_only_access_level : client.

Lemma transport_only_quit : transport_only quit.
Proof. unfold quit. transport. Qed.

Lemma transport_only_access_level_1 (kwargs : Kwargs) :
  transport_only (access_level_1 kwargs).
Proof. unfold access_level_1. transport. Qed.

#[local] Hint Resolve transport_only_quit transport_only_access_level_1
  : client.

Lemma transport_only_access_level_2 (kwargs : Kwargs) :
  transport_only (access_level_2 kwargs).
Proof. unfold access_level_2. transport. Qed.

#[local] Hint Resolve transport_only_access_level_2 : client.

(** ** Properties that a computation maintains *)

Lemma keeps_bind {A B} (P : SelClient -> Prop) (m : M A) (k : A -> M B) :
  keeps P m -> (forall a, keeps P (k a)) -> keeps P (bind m k).
Proof.
  intros Hm Hk s Hs. unfold bind. specialize (Hm s Hs).
  destruct (m s) as [[a|e] s1]; cbn [snd] in *.
  - apply Hk. exact Hm.
  - exact Hm.
Qed.

Lemma keeps_ret {A} (P : SelClient -> Prop) (a : A) : keeps P (ret a).
Proof. intros s Hs. exact Hs. Qed.

Lemma keeps_raise {A} (P : SelClient -> Prop) (e : exn) :
  keeps P (raise (A:=A) e).
Proof. intros s Hs. exact Hs. Qed.

Lemma keeps_lift {A} (P : SelClient -> Prop) (r : result A) :
  keeps P (lift r).
Proof. intros s Hs. exact Hs. Qed.

Lemma keeps_gets {A} (P : SelClient -> Prop) (f : SelClient -> A) :
  keeps P (gets f).
Proof. intros s Hs. exact Hs. Qed.

Lemma keeps_getattr {A} (P : SelClient -> Prop) (name : string)
  (f : SelClient -> option A) :
  keeps P (getattr name f).
Proof.
  intros s Hs. unfold getattr. destruct (f s); exact Hs.
Qed.

Lemma keeps_assign (P : SelClient -> Prop) (f : SelClient -> SelClient) :
  (forall s, P s -> P (f s)) -> keeps P (assign f).
Proof. intros Hf s Hs. apply Hf. exact Hs. Qed.

Lemma keeps_transport_only {A} (P : SelClient -> Prop) (m : M A) :
  conn_blind P -> transport_only m -> keeps P m.
Proof.
  intros HP [Hm _] s Hs. destruct (Hm s) as (w & p & ->).
  apply HP. exact Hs.
Qed.

(** ** Runs of single methods *)

(** [access_level] sends two probes, reads two chunks and scans them. *)
Lemma access_level_run (s : SelClient) (r1 r2 : bytes) (rest : list bytes) :
  pending (conn s) = r1 :: r2 :: rest ->
  access_level s
  = (Ok (prompt_level (r1 ++ r2)),
     set_conn {| written := written (conn s) ++ [CR; CR]; pending := rest |}
       s).
Proof.
  intros H. unfold access_level, bind, conn_write, _read_to_prompt,
    conn_read_until.
  cbn [conn set_conn pending written]. rewrite H. cbn [conn set_conn pending written].
  unfold prompt_level.
  destruct (bytes_in LEVEL_C (r1 ++ r2));
    [|destruct (bytes_in LEVEL_2 (r1 ++ r2));
      [|destruct (bytes_in LEVEL_1 (r1 ++ r2))]];
    unfold ret; cbn [set_conn conn written pending];
    rewrite <- app_assoc; reflexivity.
Qed.

(** ** The access-level methods *)

(** C4: on a connection that delivers the chunks [r1] and [r2] to the two
    probes, [access_level] returns the level of the highest prompt marker
    that occurs in [r1 + r2]: it checks [LEVEL_C], then [LEVEL_2], then
    [LEVEL_1], so a lower marker that also occurs does not matter, and it
    returns [(0, '')] when none of the three occurs. *)
Theorem access_level_highest_marker (s : SelClient) (r1 r2 : bytes)
  (rest : list bytes) (H : pending (conn s) = r1 :: r2 :: rest) :
  let resp := r1 ++ r2 in
  exists level name s',
    access_level s = (Ok (level, name), s') /\
    traffic s [CR; CR] rest s' /\
    (bytes_in LEVEL_C resp = true -> (level, name) = (3, "CAL"%string)) /\
    (bytes_in LEVEL_C resp = false -> bytes_in LEVEL_2 resp = true ->
     (level, name) = (2, "2AC"%string)) /\
    (bytes_in LEVEL_C resp = false -> bytes_in LEVEL_2 resp = false ->
     bytes_in LEVEL_1 resp = true -> (level, name) = (1, "ACC"%string)) /\
    (bytes_in LEVEL_C resp = false -> bytes_in LEVEL_2 resp = false ->
     bytes_in LEVEL_1 resp = false -> (level, name) = (0, EmptyString)) /\
    (forall l, 1 <= l <= 3 ->
               bytes_in (level_marker l) resp = true -> l <= level) /\
    (1 <= level -> bytes_in (level_marker level) resp = true).
Proof.
  cbv zeta. rewrite (access_level_run s r1 r2 rest H).
  exists (fst (prompt_level (r1 ++ r2))), (snd (prompt_level (r1 ++ r2))).
  eexists. split; [rewrite <- surjective_pairing; reflexivity|].
  split; [reflexivity|].
  unfold prompt_level.
  destruct (bytes_in LEVEL_C (r1 ++ r2)) eqn:EC;
    [|destruct (bytes_in LEVEL_2 (r1 ++ r2)) eqn:E2;
      [|destruct (bytes_in LEVEL_1 (r1 ++ r2)) eqn:E1]];
    cbn [fst snd];
    (repeat split; try congruence; try discriminate;
     [ intros l Hl;
       assert (l = 1 \/ l = 2 \/ l = 3) as [->|[->| ->]] by lia;
       unfold level_marker; cbn; intros; try lia; congruence
     | intros; try lia; unfold level_marker; cbn; assumption ]).
Qed.


(** ** Polling *)

(** C3: on a client whose regular fast-meter configuration was never set,
    [poll_fast_meter] raises the [ValueError] of its guard and leaves the
    object and its connection as they were: nothing is written. *)
Theorem poll_fast_meter_not_configured (minAccLevel : Z) (verbose : bool)
  (kwargs : Kwargs) (s : SelClient) (H : fastMeterDef s = None) :
  poll_fast_meter minAccLevel verbose kwargs s = (Raise not_configured, s) /\
  written (conn (snd (poll_fast_meter minAccLevel verbose kwargs s)))
  = written (conn s).
Proof.
  assert (E : poll_fast_meter minAccLevel verbose kwargs s
              = (Raise not_configured, s)).
  { unfold poll_fast_meter, bind, gets. rewrite H. reflexivity. }
  rewrite E. split; reflexivity.
Qed.

Lemma bind_gets {A B} (f : SelClient -> A) (k : A -> M B) (s : SelClient) :
  bind (gets f) k s = k (f s) s.
Proof. reflexivity. Qed.

Lemma bind_ret {A B} (a : A) (k : A -> M B) (s : SelClient) :
  bind (ret a) k s = k a s.
Proof. reflexivity. Qed.

Lemma bind_conn_write {B} (data : bytes) (k : unit -> M B) (s : SelClient) :
  bind (conn_write data) k s
  = k tt (set_conn {| written := written (conn s) ++ [data];
                      pending := pending (conn s) |} s).
Proof. reflexivity. Qed.

(** A computation that leaves the object as it is. *)
Lemma conn_only_unchanged {A} (m : M A) :
  (forall s, snd (m s) = s) -> conn_only m.
Proof.
  intros H s. rewrite H. exists [], (pending (conn s)). apply traffic_none.
Qed.

Lemma conn_only_ret {A} (a : A) : conn_only (ret a).
Proof. apply conn_only_unchanged. reflexivity. Qed.

Lemma conn_only_lift {A} (r : result A) : conn_only (lift r).
Proof. apply conn_only_unchanged. reflexivity. Qed.

Lemma conn_only_gets {A} (f : SelClient -> A) : conn_only (gets f).
Proof. apply conn_only_unchanged. reflexivity. Qed.

Lemma conn_only_getattr {A} (name : string) (f : SelClient -> option A) :
  conn_only (getattr name f).
Proof.
  apply conn_only_unchanged. intros s. unfold getattr.
  destruct (f s); reflexivity.
Qed.

Lemma conn_only_transport_only {A} (m : M A) :
  transport_only m -> conn_only m.
Proof. intros [H _]. exact H. Qed.



Ltac talks :=
  repeat match goal with
         | |- conn_only (bind _ _) => apply conn_only_bind; [|intros]
         | |- conn_only (if ?c then _ else _) => destruct c
         | |- conn_only (ret _) => apply conn_only_ret
         | |- conn_only (lift _) => apply conn_only_lift
         | |- conn_only (gets _) => apply conn_only_gets
         | |- conn_only (getattr _ _) => apply conn_only_getattr
         | |- conn_only _ =>
             solve [apply conn_only_transport_only; auto with client]
         end.




(** The statements of [poll_fast_meter] after its guard. *)
Lemma poll_fast_meter_configured (minAccLevel : Z) (verbose : bool)
  (kwargs : Kwargs) (s : SelClient) (cfg : ConfigBlock) :
  fastMeterDef s = Some cfg ->
  poll_fast_meter minAccLevel verbose kwargs s
  = ((if minAccLevel =? 1 then _ <- access_level_1 kwargs ;; ret tt
      else ret tt) ;;
     (if minAccLevel =? 2 then _ <- access_level_2 kwargs ;; ret tt
      else ret tt) ;;
     cmd <- gets fmcommand1 ;;
     conn_write (cmd ++ CR) ;;
     cmd <- gets fmcommand1 ;;
     raw <- _read_command_response cmd PROMPT ;;
     def <- gets fastMeterDef ;;
     dna <- getattr "dnaDef" dnaDef ;;
     lift (FastMeterBlock raw def dna verbose)) s.
Proof.
  intros H. unfold poll_fast_meter. rewrite bind_gets, H, bind_ret.
  reflexivity.
Qed.






(** ** Auto-configuration *)

Ltac keeping :=
  repeat match goal with
         | |- keeps _ (bind _ _) => apply keeps_bind; [|intros]
         | |- keeps _ (if ?c then _ else _) => destruct c
         | |- keeps _ (ret _) => apply keeps_ret
         | |- keeps _ (raise _) => apply keeps_raise
         | |- keeps _ (lift _) => apply keeps_lift
         | |- keeps _ (fmcommandinfo _ _) => apply keeps_lift
         | |- keeps _ (gets _) => apply keeps_gets
         | |- keeps _ (getattr _ _) => apply keeps_getattr
         | |- keeps _ (assign _) =>
             apply keeps_assign; intros ? ?; cbn; solve [auto; congruence]
         | |- keeps _ _ =>
             solve [apply keeps_transport_only;
                    [intros ? ? ?; cbn; solve [auto; congruence]
                    |auto with client]]
         end.

(** [autoconfig] is the relay definition exchange, then the three meter
    blocks, then the DNA and ID blocks. *)
Lemma autoconfig_after_definition (verbose : bool) (kwargs : Kwargs)
  (s : SelClient) :
  autoconfig verbose kwargs s
  = (autoconfig_relay_definition verbose kwargs ;;
     autoconfig_fastmeter verbose ;;
     autoconfig_fastmeter_demand verbose ;;
     autoconfig_fastmeter_peakdemand verbose ;;
     autoconfig_dna_and_id verbose) s.
Proof.
  unfold autoconfig, autoconfig_relay_definition, autoconfig_dna_and_id.
  repeat (rewrite bind_assoc; apply bind_ext; intros).
  reflexivity.
Qed.

(** The relay definition exchange touches neither the stored block
    configurations nor the identity. *)
Lemma autoconfig_relay_definition_keeps (verbose : bool) (kwargs : Kwargs)
  (v : _) :
  keeps (fun s => stored_configuration s = v)
    (autoconfig_relay_definition verbose kwargs).
Proof.
  unfold autoconfig_relay_definition. keeping.
Qed.

Lemma autoconfig_fastmeter_run (verbose : bool) (s : SelClient)
  (chunk : bytes) (rest : list bytes) :
  pending (conn s) = chunk :: rest ->
  autoconfig_fastmeter verbose s
  = let s1 := set_conn {| written := written (conn s)
                                     ++ [fmconfigcommand1 s ++ CR];
                        pending := rest |} s in
    match FastMeterConfigurationBlock chunk verbose with
    | Ok blk => (Ok tt, set_fastMeterDef (Some blk) s1)
    | Raise e => (Raise e, s1)
    end.
Proof.
  intros H. unfold autoconfig_fastmeter.
  rewrite bind_gets, bind_conn_write.
  unfold bind, _read_to_prompt, conn_read_until, lift, assign.
  cbn [conn set_conn pending written]. rewrite H.
  destruct (FastMeterConfigurationBlock chunk verbose); reflexivity.
Qed.

Lemma autoconfig_fastmeter_demand_run (verbose : bool) (s : SelClient)
  (chunk : bytes) (rest : list bytes) :
  pending (conn s) = chunk :: rest ->
  autoconfig_fastmeter_demand verbose s
  = let s1 := set_conn {| written := written (conn s)
                                     ++ [fmconfigcommand2 s ++ CR];
                        pending := rest |} s in
    match FastMeterConfigurationBlock chunk verbose with
    | Ok blk => (Ok tt, set_fastDemandDef (Some blk) s1)
    | Raise e => (Raise e, s1)
    end.
Proof.
  intros H. unfold autoconfig_fastmeter_demand.
  rewrite bind_gets, bind_conn_write.
  unfold bind, _read_to_prompt, conn_read_until, lift, assign.
  cbn [conn set_conn pending written]. rewrite H.
  destruct (FastMeterConfigurationBlock chunk verbose); reflexivity.
Qed.

Lemma autoconfig_fastmeter_peakdemand_run (verbose : bool) (s : SelClient)
  (chunk : bytes) (rest : list bytes) :
  pending (conn s) = chunk :: rest ->
  autoconfig_fastmeter_peakdemand verbose s
  = let s1 := set_conn {| written := written (conn s)
                                     ++ [fmconfigcommand3 s ++ CR];
                        pending := rest |} s in
    match FastMeterConfigurationBlock chunk verbose with
    | Ok blk => (Ok tt, set_fastPkDemandDef (Some blk) s1)
    | Raise e => (Raise e, s1)
    end.
Proof.
  intros H. unfold autoconfig_fastmeter_peakdemand.
  rewrite bind_gets, bind_conn_write.
  unfold bind, _read_to_prompt, conn_read_until, lift, assign.
  cbn [conn set_conn pending written]. rewrite H.
  destruct (FastMeterConfigurationBlock chunk verbose); reflexivity.
Qed.

(** C1 as the spec words it does not hold (a run against the test double
    below shows it).  Amended: the three
    variants are configured one after the other and an exception of the
    parser leaves [autoconfig] at once.  When the relay definition exchange
    has succeeded and the next three chunks are [c1], [c2] and [c3], the
    variant whose block is the first that fails to parse is not stored, the
    variants after it are neither requested nor stored, and the variants
    before it are stored. *)
Theorem autoconfig_meter_block_failure_aborts (verbose : bool)
  (kwargs : Kwargs) (s s1 : SelClient) (c1 c2 c3 : bytes) (rest : list bytes)
  (Hdef : autoconfig_relay_definition verbose kwargs s = (Ok tt, s1))
  (Hconn : pending (conn s1) = c1 :: c2 :: c3 :: rest) :
  let out := autoconfig verbose kwargs s in
  let parse c := FastMeterConfigurationBlock c verbose in
  let req1 := fmconfigcommand1 s1 ++ CR in
  let req2 := fmconfigcommand2 s1 ++ CR in
  let req3 := fmconfigcommand3 s1 ++ CR in
  (forall e, parse c1 = Raise e ->
     fst out = Raise e /\
     fastMeterDef (snd out) = fastMeterDef s /\
     fastDemandDef (snd out) = fastDemandDef s /\
     fastPkDemandDef (snd out) = fastPkDemandDef s /\
     written (conn (snd out)) = written (conn s1) ++ [req1] /\
     pending (conn (snd out)) = c2 :: c3 :: rest) /\
  (forall blk1 e, parse c1 = Ok blk1 -> parse c2 = Raise e ->
     fst out = Raise e /\
     fastMeterDef (snd out) = Some blk1 /\
     fastDemandDef (snd out) = fastDemandDef s /\
     fastPkDemandDef (snd out) = fastPkDemandDef s /\
     written (conn (snd out)) = written (conn s1) ++ [req1; req2] /\
     pending (conn (snd out)) = c3 :: rest) /\
  (forall blk1 blk2 e,
     parse c1 = Ok blk1 -> parse c2 = Ok blk2 -> parse c3 = Raise e ->
     fst out = Raise e /\
     fastMeterDef (snd out) = Some blk1 /\
     fastDemandDef (snd out) = Some blk2 /\
     fastPkDemandDef (snd out) = fastPkDemandDef s /\
     written (conn (snd out)) = written (conn s1) ++ [req1; req2; req3] /\
     pending (conn (snd out)) = rest).
Proof.
  cbv zeta.
  pose proof (autoconfig_relay_definition_keeps verbose kwargs
                (stored_configuration s) s eq_refl) as Hkeep.
  rewrite Hdef in Hkeep. cbn [snd] in Hkeep.
  unfold stored_configuration in Hkeep.
  injection Hkeep as Hfm Hfd Hfp _ _ _ _ _ _ _.
  assert (E0 : autoconfig verbose kwargs s
               = (autoconfig_fastmeter verbose ;;
                  autoconfig_fastmeter_demand verbose ;;
                  autoconfig_fastmeter_peakdemand verbose ;;
                  autoconfig_dna_and_id verbose) s1).
  { rewrite autoconfig_after_definition.
    rewrite (bind_ok _ _ _ _ _ Hdef). reflexivity. }
  pose proof (autoconfig_fastmeter_run verbose s1 c1 _ Hconn) as R1.
  cbv zeta in R1.
  split; [|split].
  - intros e H1. rewrite H1 in R1.
    rewrite E0, (bind_raise _ _ _ _ _ R1).
    cbn [fst snd conn set_conn written pending fastMeterDef
         fastDemandDef fastPkDemandDef].
    repeat split; assumption || reflexivity.
  - intros blk1 e H1 H2. rewrite H1 in R1.
    rewrite E0, (bind_ok _ _ _ _ _ R1).
    pose proof (autoconfig_fastmeter_demand_run verbose
                  (set_fastMeterDef (Some blk1)
                     (set_conn {| written := written (conn s1)
                                             ++ [fmconfigcommand1 s1 ++ CR];
                                  pending := c2 :: c3 :: rest |} s1))
                  c2 (c3 :: rest) eq_refl) as R2.
    cbv zeta in R2. rewrite H2 in R2.
    rewrite (bind_raise _ _ _ _ _ R2).
    cbn [fst snd conn set_conn set_fastMeterDef written pending fastMeterDef
         fastDemandDef fastPkDemandDef fmconfigcommand2].
    rewrite <- app_assoc.
    repeat split; assumption || reflexivity.
  - intros blk1 blk2 e H1 H2 H3. rewrite H1 in R1.
    rewrite E0, (bind_ok _ _ _ _ _ R1).
    pose proof (autoconfig_fastmeter_demand_run verbose
                  (set_fastMeterDef (Some blk1)
                     (set_conn {| written := written (conn s1)
                                             ++ [fmconfigcommand1 s1 ++ CR];
                                  pending := c2 :: c3 :: rest |} s1))
                  c2 (c3 :: rest) eq_refl) as R2.
    cbv zeta in R2. rewrite H2 in R2.
    rewrite (bind_ok _ _ _ _ _ R2).
    match type of R2 with
    | _ = (_, ?s3) =>
        pose proof (autoconfig_fastmeter_peakdemand_run verbose s3 c3 rest
                      eq_refl) as R3
    end.
    cbv zeta in R3. rewrite H3 in R3.
    rewrite (bind_raise _ _ _ _ _ R3).
    cbn [fst snd conn set_conn set_fastMeterDef set_fastDemandDef written
         pending fastMeterDef fastDemandDef fastPkDemandDef fmconfigcommand2
         fmconfigcommand3].
    rewrite <- !app_assoc.
    repeat split; assumption || reflexivity.
Qed.



(** ** The constructor *)

Lemma transport_only__verify_connection_loop (attempts : nat) :
  transport_only (_verify_connection_loop attempts).
Proof.
  induction attempts as [|attempts IH]; cbn [_verify_connection_loop];
    transport.
Qed.

(** A client that was constructed without auto-configuration has no regular
    fast-meter configuration. *)
Lemma init_without_autoconfig (connApi : Conn) (validConnChecks : Z)
  (verbose debug : bool) :
  fastMeterDef (snd (__init__ connApi false validConnChecks verbose debug))
  = None.
Proof.
  unfold __init__.
  match goal with
  | |- fastMeterDef (snd (?m ?s0)) = None =>
      assert (K : keeps (fun s => fastMeterDef s = None) m);
        [|exact (K s0 eq_refl)]
  end.
  pose proof transport_only__verify_connection_loop.
  unfold _verify_connection. keeping.
Qed.

(** ** The connection check *)








(** ** The constructor, continued *)



(** ** [_read_command_response], exactly *)


Lemma _read_command_response_loop_found (command prompt_str : bytes)
  (k : nat) :
  forall (fuel : nat) (response : bytes) (s : SelClient),
    (List.length (pending (conn s)) < fuel)%nat ->
    (k <= List.length (pending (conn s)))%nat ->
    (forall j, (j < k)%nat ->
               bytes_in command
                 (response ++ List.concat (firstn j (pending (conn s)))) = false) ->
    bytes_in command (response ++ List.concat (firstn k (pending (conn s)))) = true ->
    _read_command_response_loop fuel command prompt_str response s
    = Some (Ok (response ++ List.concat (firstn k (pending (conn s)))),
            set_conn {| written := written (conn s);
                        pending := skipn k (pending (conn s)) |} s).
Proof.
  induction k as [|k IH]; intros fuel response s Hfuel Hk Hmiss Hhit;
    (destruct fuel as [|fuel]; [lia|]);
    cbn [_read_command_response_loop]; rewrite bytes_find_in.
  - cbn [firstn List.concat skipn] in *. rewrite app_nil_r in *.
    rewrite Hhit. cbn [negb].
    destruct s as [[w p] ? ? ? ? ? ? ? ? ? ? ? ? ? ? ? ? ? ? ? ? ?].
    reflexivity.
  - pose proof (Hmiss 0%nat ltac:(lia)) as H0.
    cbn [firstn List.concat] in H0. rewrite app_nil_r in H0.
    rewrite H0. cbn [negb].
    unfold _read_to_prompt, conn_read_until.
    remember (pending (conn s)) as p eqn:Hp.
    destruct p as [|chunk rest]; [cbn in Hk; lia|].
    cbn [firstn skipn List.concat List.length] in *.
    rewrite (IH fuel (response ++ chunk)
               (set_conn {| written := written (conn s); pending := rest |} s)).
    + cbn [conn set_conn pending written]. rewrite <- app_assoc.
      reflexivity.
    + cbn [conn set_conn pending]. lia.
    + cbn [conn set_conn pending]. lia.
    + cbn [conn set_conn pending]. intros j Hj.
      rewrite <- app_assoc. apply (Hmiss (S j)). lia.
    + cbn [conn set_conn pending]. rewrite <- app_assoc. exact Hhit.
Qed.

(** X10: [_read_command_response] reads as few chunks as it takes for the
    accumulated response to contain the command (none when it is found in
    the empty response), returns their concatenation and leaves the chunks
    after them unread; a command that lies across two chunks is found.  When
    no number of chunks is enough it raises [EOFError].  It writes
    nothing. *)
Theorem _read_command_response_shortest (command prompt_str : bytes)
  (s : SelClient) :
  (forall k,
     (k <= List.length (pending (conn s)))%nat ->
     (forall j, (j < k)%nat ->
                bytes_in command (List.concat (firstn j (pending (conn s))))
                = false) ->
     bytes_in command (List.concat (firstn k (pending (conn s)))) = true ->
     _read_command_response command prompt_str s
     = (Ok (List.concat (firstn k (pending (conn s)))),
        set_conn {| written := written (conn s);
                    pending := skipn k (pending (conn s)) |} s)) /\
  ((forall j, bytes_in command (List.concat (firstn j (pending (conn s)))) = false) ->
   fst (_read_command_response command prompt_str s) = Raise EOFError /\
   written (conn (snd (_read_command_response command prompt_str s)))
   = written (conn s)).
Proof.
  split.
  - intros k Hk Hmiss Hhit. unfold _read_command_response.
    rewrite (_read_command_response_loop_found command prompt_str k);
      [reflexivity|lia|exact Hk|exact Hmiss|exact Hhit].
  - intros Hmiss.
    destruct (_read_command_response_spec command prompt_str s)
      as [(left & T) [R|(r & R & Hr)]].
    + split; [exact R|].
      unfold traffic in T. rewrite T.
      cbn [conn set_conn written]. apply app_nil_r.
    + exfalso.
      unfold _read_command_response in R.
      destruct (_read_command_response_loop _ command prompt_str [] s)
        as [out|] eqn:E; [|discriminate].
      revert E R Hr Hmiss. clear.
      generalize (S (List.length (pending (conn s)))) as fuel.
      intros fuel E R Hr Hmiss.
      assert (Hgen : forall fuel response s out,
                 _read_command_response_loop fuel command prompt_str
                   response s = Some out ->
                 fst out = Ok r ->
                 exists j, r = response
                               ++ List.concat (firstn j (pending (conn s)))).
      { clear. induction fuel as [|fuel IH]; intros response s out;
          cbn [_read_command_response_loop];
          destruct (bytes_find response command =? -1).
        - discriminate.
        - intros [= <-] [= <-]. exists 0%nat. cbn. rewrite app_nil_r.
          reflexivity.
        - unfold _read_to_prompt, conn_read_until.
          destruct (pending (conn s)) as [|chunk rest] eqn:Hp.
          + intros [= <-]. discriminate.
          + intros E R. destruct (IH _ _ _ E R) as [j Hj].
            exists (S j). cbn [conn set_conn pending] in Hj.
            cbn [firstn List.concat]. rewrite Hj, <- app_assoc. reflexivity.
        - intros [= <-] [= <-]. exists 0%nat. cbn. rewrite app_nil_r.
          reflexivity. }
      destruct (Hgen fuel [] s out E R) as [j Hj].
      cbn [List.app] in Hj. subst r. rewrite Hmiss in Hr. discriminate.
Qed.

(** ** Elevation to 2AC *)

Lemma _read_to_prompt_run (prompt_str chunk : bytes) (rest : list bytes)
  (s : SelClient) :
  pending (conn s) = chunk :: rest ->
  _read_to_prompt prompt_str s
  = (Ok chunk, set_conn {| written := written (conn s); pending := rest |} s).
Proof. apply conn_read_until_run. Qed.




(** ** What the session methods leave alone *)


(** ** Auto-configuration, continued *)


Lemma autoconfig_dna_and_id_run (verbose : bool) (s : SelClient)
  (d i : bytes) (rest : list bytes) (dna : DnaBlock) (id_block : IdBlock) :
  pending (conn s) = d :: i :: rest ->
  RelayDnaBlock d verbose = Ok dna ->
  RelayIdBlock i verbose = Ok id_block ->
  autoconfig_dna_and_id verbose s
  = (Ok (FID id_block),
     set_config (CONFIG id_block)
       (set_partno (PARTNO id_block)
          (set_devid (DEVID id_block)
             (set_cid (CID id_block)
                (set_bfid (BFID id_block)
                   (set_fid (FID id_block)
                      (set_dnaDef (Some dna)
                         (set_conn {| written := written (conn s)
                                                 ++ [DNA; ID];
                                      pending := rest |} s)))))))).
Proof.
  intros Hp Hdna Hid. unfold autoconfig_dna_and_id.
  rewrite bind_conn_write.
  erewrite bind_ok by (apply _read_to_prompt_run; cbn; exact Hp).
  unfold bind at 1. unfold lift at 1. rewrite Hdna.
  unfold bind at 1. unfold assign at 1.
  rewrite bind_conn_write.
  erewrite bind_ok by (apply _read_to_prompt_run; reflexivity).
  unfold bind at 1. unfold lift at 1. rewrite Hid.
  unfold bind, assign, gets.
  cbn [conn set_conn set_dnaDef set_fid set_bfid set_cid set_devid
       set_partno set_config written pending fid].
  rewrite <- app_assoc. reflexivity.
Qed.

(** X15: A run of [autoconfig] in which the relay definition exchange succeeds
    and the five responses that follow all parse: it returns the FID of the
    ID block; the three block configurations, the DNA definition and the six
    identity fields are the parsed ones, whatever was stored before; the
    command codes are those of the relay definition; and the requests
    written are the three configuration commands, each followed by [CR], then
    [DNA] and [ID] as they are. *)
Theorem autoconfig_success (verbose : bool) (kwargs : Kwargs)
  (s s1 : SelClient) (c1 c2 c3 d i : bytes) (rest : list bytes)
  (blk1 blk2 blk3 : ConfigBlock) (dna : DnaBlock) (id_block : IdBlock)
  (Hdef : autoconfig_relay_definition verbose kwargs s = (Ok tt, s1))
  (Hconn : pending (conn s1) = c1 :: c2 :: c3 :: d :: i :: rest)
  (H1 : FastMeterConfigurationBlock c1 verbose = Ok blk1)
  (H2 : FastMeterConfigurationBlock c2 verbose = Ok blk2)
  (H3 : FastMeterConfigurationBlock c3 verbose = Ok blk3)
  (Hdna : RelayDnaBlock d verbose = Ok dna)
  (Hid : RelayIdBlock i verbose = Ok id_block) :
  let out := autoconfig verbose kwargs s in
  fst out = Ok (FID id_block) /\
  stored_configuration (snd out)
  = (Some blk1, Some blk2, Some blk3, Some dna,
     (FID id_block, BFID id_block, CID id_block, DEVID id_block,
      PARTNO id_block, CONFIG id_block)) /\
  command_codes (snd out) = command_codes s1 /\
  written (conn (snd out))
  = written (conn s1)
      ++ [fmconfigcommand1 s1 ++ CR; fmconfigcommand2 s1 ++ CR;
          fmconfigcommand3 s1 ++ CR; DNA; ID] /\
  pending (conn (snd out)) = rest.
Proof.
  cbv zeta. rewrite autoconfig_after_definition, (bind_ok _ _ _ _ _ Hdef).
  pose proof (autoconfig_fastmeter_run verbose s1 c1 _ Hconn) as R1.
  cbv zeta in R1. rewrite H1 in R1.
  rewrite (bind_ok _ _ _ _ _ R1).
  match type of R1 with
  | _ = (_, ?st) =>
      pose proof (autoconfig_fastmeter_demand_run verbose st c2 _ eq_refl)
        as R2
  end.
  cbv zeta in R2. rewrite H2 in R2.
  rewrite (bind_ok _ _ _ _ _ R2).
  match type of R2 with
  | _ = (_, ?st) =>
      pose proof (autoconfig_fastmeter_peakdemand_run verbose st c3 _ eq_refl)
        as R3
  end.
  cbv zeta in R3. rewrite H3 in R3.
  rewrite (bind_ok _ _ _ _ _ R3).
  match type of R3 with
  | _ = (_, ?st) =>
      pose proof (autoconfig_dna_and_id_run verbose st d i rest dna id_block
                    eq_refl Hdna Hid) as R4
  end.
  rewrite R4. clear R1 R2 R3 R4.
  unfold stored_configuration, command_codes.
  cbn [fst snd conn written pending set_conn set_fid set_bfid set_cid
       set_devid set_partno set_config set_dnaDef set_fastMeterDef
       set_fastDemandDef set_fastPkDemandDef fastMeterDef fastDemandDef
       fastPkDemandDef dnaDef fid bfid cid devid partno config
       fmconfigcommand1 fmcommand1 fmconfigcommand2 fmcommand2
       fmconfigcommand3 fmcommand3 fopcommandinfo fmsgcommandinfo].
  rewrite <- !app_assoc.
  repeat split.
Qed.

(** ** Polling, continued *)

Lemma conn_only_raise {A} (e : exn) : conn_only (raise (A:=A) e).
Proof. apply conn_only_unchanged. reflexivity. Qed.

(** X16: Whatever its outcome, [poll_fast_meter] changes no stored configuration
    and no command code: it only appends to what was written on the
    connection and consumes chunks. *)
Theorem poll_fast_meter_conn_only (minAccLevel : Z) (verbose : bool)
  (kwargs : Kwargs) (s : SelClient) :
  let out := poll_fast_meter minAccLevel verbose kwargs s in
  stored_configuration (snd out) = stored_configuration s /\
  command_codes (snd out) = command_codes s /\
  exists sent, written (conn (snd out)) = written (conn s) ++ sent.
Proof.
  cbv zeta.
  assert (H : conn_only (poll_fast_meter minAccLevel verbose kwargs)).
  { unfold poll_fast_meter.
    apply conn_only_bind; [apply conn_only_gets|intros def].
    apply conn_only_bind;
      [destruct def; [apply conn_only_ret|apply conn_only_raise]|intros _].
    talks. }
  destruct (H s) as (sent & left & T). unfold traffic in T. rewrite T.
  repeat split. exists sent. reflexivity.
Qed.


(** X18: The elevation inside [poll_fast_meter] is best effort: its result is
    discarded.  Whether [access_level_1] (or [access_level_2]) returned
    [True] or [False], a poll with [minAccLevel] 1 (or 2) continues exactly
    as a poll without elevation does on the object that the elevation left
    behind. *)
Theorem poll_fast_meter_ignores_elevation (verbose : bool) (kwargs : Kwargs)
  (s : SelClient) (cfg : ConfigBlock) (Hcfg : fastMeterDef s = Some cfg) :
  (forall ok s',
     access_level_1 kwargs s = (Ok ok, s') ->
     poll_fast_meter 1 verbose kwargs s = poll_fast_meter 0 verbose kwargs s') /\
  (forall ok s',
     access_level_2 kwargs s = (Ok ok, s') ->
     poll_fast_meter 2 verbose kwargs s = poll_fast_meter 0 verbose kwargs s').
Proof.
  split; intros ok s' H.
  - assert (Hcfg' : fastMeterDef s' = Some cfg).
    { destruct (proj1 (transport_only_access_level_1 kwargs) s)
        as (w & p & T).
      rewrite H in T. cbn [snd] in T. rewrite <- Hcfg.
      eapply traffic_attribute; [|exact T]. reflexivity. }
    rewrite (poll_fast_meter_configured _ _ _ _ _ Hcfg),
      (poll_fast_meter_configured _ _ _ _ _ Hcfg').
    cbn [Z.eqb Pos.eqb].
    rewrite bind_assoc, (bind_ok _ _ _ _ _ H), !bind_ret. reflexivity.
  - assert (Hcfg' : fastMeterDef s' = Some cfg).
    { destruct (proj1 (transport_only_access_level_2 kwargs) s)
        as (w & p & T).
      rewrite H in T. cbn [snd] in T. rewrite <- Hcfg.
      eapply traffic_attribute; [|exact T]. reflexivity. }
    rewrite (poll_fast_meter_configured _ _ _ _ _ Hcfg),
      (poll_fast_meter_configured _ _ _ _ _ Hcfg').
    cbn [Z.eqb Pos.eqb].
    rewrite !bind_ret.
    rewrite bind_assoc, (bind_ok _ _ _ _ _ H), !bind_ret. reflexivity.
Qed.

(** ** The three configuration methods on their own *)

Lemma autoconfig_fastmeter_closed (verbose : bool) (s : SelClient) :
  pending (conn s) = [] ->
  autoconfig_fastmeter verbose s
  = (Raise EOFError,
     set_conn {| written := written (conn s) ++ [fmconfigcommand1 s ++ CR];
                 pending := [] |} s).
Proof.
  intros H. unfold autoconfig_fastmeter.
  rewrite bind_gets, bind_conn_write.
  unfold bind, _read_to_prompt, conn_read_until.
  cbn [conn set_conn pending written]. rewrite H. reflexivity.
Qed.

Lemma autoconfig_fastmeter_demand_closed (verbose : bool) (s : SelClient) :
  pending (conn s) = [] ->
  autoconfig_fastmeter_demand verbose s
  = (Raise EOFError,
     set_conn {| written := written (conn s) ++ [fmconfigcommand2 s ++ CR];
                 pending := [] |} s).
Proof.
  intros H. unfold autoconfig_fastmeter_demand.
  rewrite bind_gets, bind_conn_write.
  unfold bind, _read_to_prompt, conn_read_until.
  cbn [conn set_conn pending written]. rewrite H. reflexivity.
Qed.

Lemma autoconfig_fastmeter_peakdemand_closed (verbose : bool)
  (s : SelClient) :
  pending (conn s) = [] ->
  autoconfig_fastmeter_peakdemand verbose s
  = (Raise EOFError,
     set_conn {| written := written (conn s) ++ [fmconfigcommand3 s ++ CR];
                 pending := [] |} s).
Proof.
  intros H. unfold autoconfig_fastmeter_peakdemand.
  rewrite bind_gets, bind_conn_write.
  unfold bind, _read_to_prompt, conn_read_until.
  cbn [conn set_conn pending written]. rewrite H. reflexivity.
Qed.

(** X19: Called on its own, each of [autoconfig_fastmeter],
    [autoconfig_fastmeter_demand] and [autoconfig_fastmeter_peakdemand]
    writes its own configuration command followed by [CR] and nothing else,
    changes no command code, leaves the configurations of the other two
    variants as they are, and, when it raises, leaves its own as well. *)
Theorem meter_block_methods_independent (verbose : bool) (s : SelClient) :
  let regular := autoconfig_fastmeter verbose s in
  let demand := autoconfig_fastmeter_demand verbose s in
  let peak := autoconfig_fastmeter_peakdemand verbose s in
  (written (conn (snd regular))
   = written (conn s) ++ [fmconfigcommand1 s ++ CR] /\
   command_codes (snd regular) = command_codes s /\
   fastDemandDef (snd regular) = fastDemandDef s /\
   fastPkDemandDef (snd regular) = fastPkDemandDef s /\
   (forall e, fst regular = Raise e ->
              fastMeterDef (snd regular) = fastMeterDef s)) /\
  (written (conn (snd demand))
   = written (conn s) ++ [fmconfigcommand2 s ++ CR] /\
   command_codes (snd demand) = command_codes s /\
   fastMeterDef (snd demand) = fastMeterDef s /\
   fastPkDemandDef (snd demand) = fastPkDemandDef s /\
   (forall e, fst demand = Raise e ->
              fastDemandDef (snd demand) = fastDemandDef s)) /\
  (written (conn (snd peak))
   = written (conn s) ++ [fmconfigcommand3 s ++ CR] /\
   command_codes (snd peak) = command_codes s /\
   fastMeterDef (snd peak) = fastMeterDef s /\
   fastDemandDef (snd peak) = fastDemandDef s /\
   (forall e, fst peak = Raise e ->
              fastPkDemandDef (snd peak) = fastPkDemandDef s)).
Proof.
  cbv zeta.
  destruct (pending (conn s)) as [|chunk rest] eqn:Hp.
  - rewrite (autoconfig_fastmeter_closed verbose s Hp),
      (autoconfig_fastmeter_demand_closed verbose s Hp),
      (autoconfig_fastmeter_peakdemand_closed verbose s Hp).
    cbn [fst snd]. repeat split.
  - rewrite (autoconfig_fastmeter_run verbose s chunk rest Hp),
      (autoconfig_fastmeter_demand_run verbose s chunk rest Hp),
      (autoconfig_fastmeter_peakdemand_run verbose s chunk rest Hp).
    cbv zeta.
    destruct (FastMeterConfigurationBlock chunk verbose) as [blk|e'];
      cbn [fst snd]; repeat split; discriminate.
Qed.

End General.

(** ** Runs against the test double *)

Section Runs.
Import Double.

Lemma access_level_highest_marker_witness :
  pending (conn (new_client [b "=>"; b "=>>"])) = [b "=>"; b "=>>"] /\
  fst (access_level (new_client [b "=>"; b "=>>"])) = Ok (2, "2AC"%string).
Proof.
  split; [reflexivity|].
  destruct (access_level_highest_marker
              (new_client [b "=>"; b "=>>"]) (b "=>") (b "=>>") [] eq_refl)
    as (level & name & s' & E & _ & _ & H2 & _).
  rewrite E. cbn [fst]. f_equal. apply H2; reflexivity.
Defined.


Lemma poll_fast_meter_not_configured_witness :
  fastMeterDef (new_client []) = None /\
  poll_fast_meter 0 false no_kwargs (new_client [])
  = (Raise not_configured, new_client []).
Proof.
  split; [reflexivity|].
  apply (poll_fast_meter_not_configured 0 false no_kwargs (new_client [])).
  reflexivity.
Defined.


(** C1, counterexample: the relay delivers an unparseable regular
    configuration block and would deliver parseable demand and peak-demand
    blocks.  [autoconfig] raises the parser's exception right after the
    request of the regular block: the demand and peak-demand configurations
    are neither requested nor stored. *)
Lemma autoconfig_failed_variant_stops_the_others :
  let out := autoconfig false no_kwargs client_bad_regular in
  FastMeterConfigurationBlock (b "BAD") false
  = Raise (ParserError "unparseable block") /\
  FastMeterConfigurationBlock (b "demand") false = Ok (b "demand") /\
  FastMeterConfigurationBlock (b "peak") false = Ok (b "peak") /\
  fst out = Raise (ParserError "unparseable block") /\
  fastDemandDef (snd out) = None /\
  fastPkDemandDef (snd out) = None /\
  last (written (conn (snd out))) [] = [xa5; xc1] ++ crlf /\
  ~ In ([xa5; xc2] ++ crlf) (written (conn (snd out))) /\
  ~ In ([xa5; xc3] ++ crlf) (written (conn (snd out))) /\
  pending (conn (snd out)) = [b "demand"; b "peak"; b "dna"; b "FID=1"].
Proof.
  vm_compute. repeat split; try reflexivity; intuition discriminate.
Qed.

Lemma autoconfig_meter_block_failure_aborts_witness :
  let s1 := snd (autoconfig_relay_definition false no_kwargs
                   client_bad_regular) in
  autoconfig_relay_definition false no_kwargs client_bad_regular
  = (Ok tt, s1) /\
  pending (conn s1) = [b "BAD"; b "demand"; b "peak"; b "dna"; b "FID=1"] /\
  fastDemandDef (snd (autoconfig false no_kwargs client_bad_regular))
  = fastDemandDef client_bad_regular.
Proof.
  cbv zeta.
  assert (H1 : autoconfig_relay_definition false no_kwargs client_bad_regular
               = (Ok tt,
                  snd (autoconfig_relay_definition false no_kwargs
                         client_bad_regular)))
    by (vm_compute; reflexivity).
  assert (H2 : pending (conn (snd (autoconfig_relay_definition false
                                     no_kwargs client_bad_regular)))
               = [b "BAD"; b "demand"; b "peak"; b "dna"; b "FID=1"])
    by (vm_compute; reflexivity).
  assert (H3 : FastMeterConfigurationBlock (b "BAD") false
               = Raise (ParserError "unparseable block"))
    by (vm_compute; reflexivity).
  split; [exact H1|split; [exact H2|]].
  apply (proj1 (autoconfig_meter_block_failure_aborts false no_kwargs
                  client_bad_regular _ (b "BAD") (b "demand") (b "peak")
                  [b "dna"; b "FID=1"] H1 H2)
           (ParserError "unparseable block") H3).
Defined.







Lemma _read_command_response_shortest_witness :
  let s := new_client [[xa5]; [xd1] ++ b "data"; b "more"] in
  _read_command_response [xa5; xd1] PROMPT s
  = (Ok ([xa5; xd1] ++ b "data"),
     set_conn {| written := written (conn s); pending := [b "more"] |} s).
Proof.
  cbv zeta.
  apply (proj1 (_read_command_response_shortest [xa5; xd1] PROMPT
                  (new_client [[xa5]; [xd1] ++ b "data"; b "more"])) 2%nat).
  - vm_compute. lia.
  - intros j Hj. destruct j as [|[|j]]; [reflexivity|reflexivity|lia].
  - reflexivity.
Defined.



Lemma autoconfig_success_witness :
  fst (autoconfig false no_kwargs
         (new_client
            (autoconfig_transcript (b "regular") (b "demand") (b "peak")
               (b "dna") (b "FID=1"))))
  = Ok "FID=1"%string.
Proof.
  set (s := new_client
              (autoconfig_transcript (b "regular") (b "demand") (b "peak")
                 (b "dna") (b "FID=1"))).
  assert (Hdef : autoconfig_relay_definition false no_kwargs s
                 = (Ok tt, snd (autoconfig_relay_definition false no_kwargs s)))
    by (vm_compute; reflexivity).
  assert (Hconn : pending (conn (snd (autoconfig_relay_definition false
                                        no_kwargs s)))
                  = [b "regular"; b "demand"; b "peak"; b "dna"; b "FID=1"])
    by (vm_compute; reflexivity).
  apply (autoconfig_success false no_kwargs s _ (b "regular") (b "demand")
           (b "peak") (b "dna") (b "FID=1") [] (b "regular") (b "demand")
           (b "peak") (b "dna") (sample_id (b "FID=1")) Hdef Hconn
           eq_refl eq_refl eq_refl eq_refl eq_refl).
Defined.


Lemma poll_fast_meter_ignores_elevation_witness :
  fastMeterDef client_rejected = Some (b "regular") /\
  fst (access_level_1 no_kwargs client_rejected) = Ok false /\
  fst (poll_fast_meter 1 false no_kwargs client_rejected)
  = Ok ([xa5; xd1] ++ b "data", Some (b "regular"), b "dna").
Proof.
  assert (Hcfg : fastMeterDef client_rejected = Some (b "regular"))
    by (vm_compute; reflexivity).
  assert (H1 : access_level_1 no_kwargs client_rejected
               = (Ok false, snd (access_level_1 no_kwargs client_rejected)))
    by (vm_compute; reflexivity).
  split; [exact Hcfg|split; [rewrite H1; reflexivity|]].
  rewrite (proj1 (poll_fast_meter_ignores_elevation false no_kwargs
                    client_rejected (b "regular") Hcfg) false _ H1).
  vm_compute. reflexivity.
Defined.

Lemma meter_block_methods_independent_witness :
  let s := new_client [b "BAD"] in
  fst (autoconfig_fastmeter false s)
  = Raise (ParserError "unparseable block") /\
  fastMeterDef (snd (autoconfig_fastmeter false s)) = fastMeterDef s.
Proof.
  cbv zeta.
  assert (H : fst (autoconfig_fastmeter false (new_client [b "BAD"]))
              = Raise (ParserError "unparseable block"))
    by (vm_compute; reflexivity).
  split; [exact H|].
  destruct (meter_block_methods_independent false (new_client [b "BAD"]))
    as [(_ & _ & _ & _ & Hkeep) _].
  exact (Hkeep _ H).
Defined.
End Runs.

End ClientSpec.
